(** * EVA Foundation: the MCP knowledge server and the ingestion client

    A shallow embedding of [hello_mcp.py] (class [EVAMCPServer] and its
    protocol handlers) and of [scripts/ingest_knowledge_base.py]
    ([trigger_ingestion]), with the fragment of the Python runtime the two
    files rely on: dynamically typed values, exceptions that derive from
    [Exception], [str]/[repr], [min], [range], [len] and slicing.

    Console output ([print]) and the [logging] calls do not influence the
    values the functions return and are left out of the embedding. *)

From Stdlib Require Import ZArith Floats Ascii String List Sorting.Sorted Lia.
From stdpp Require Import base option list strings gmap pretty.

Set Warnings "-inexact-float,-register-all".

Local Open Scope Z_scope.

(** ** Python values *)

Module Py.

(** The values that travel through the server: what a JSON document decodes
    to, which is also all the handlers build.  A [dict] keeps its insertion
    order, and every key met here is a [str]. *)
Inductive pyval : Type :=
| PyNone
| PyBool (b : bool)
| PyInt (z : Z)
| PyFloat (f : float)
| PyStr (s : string)
| PyList (l : list pyval)
| PyDict (d : list (string * pyval)).

(** Exception classes met in the two files, and [issubclass] for the two
    classes an [except] clause of the ingestion client names.  Every class
    here derives from [Exception]; the interpreter's exit signals
    ([KeyboardInterrupt], [SystemExit]), which no modelled code raises, are
    not represented. *)
Inductive pyclass : Type :=
| TypeError | ValueError | KeyError | OSError
| RequestException | HTTPError | ConnectionError
| Timeout | ConnectTimeout | ReadTimeout | JSONDecodeError
| OtherException (name : string).

Definition issubclass_Timeout (c : pyclass) : bool :=
  match c with
  | Timeout | ConnectTimeout | ReadTimeout => true
  | _ => false
  end.

Definition issubclass_RequestException (c : pyclass) : bool :=
  match c with
  | RequestException | HTTPError | ConnectionError
  | Timeout | ConnectTimeout | ReadTimeout | JSONDecodeError => true
  | _ => false
  end.

(** An exception instance: its class and what [str(e)] yields. *)
Record pyexc : Type := mkExc { exc_class : pyclass; exc_str : string }.

(** A computation either returns or raises. *)
Inductive result (A : Type) : Type :=
| Ok (a : A)
| Raise (e : pyexc).
Arguments Ok {A} a.
Arguments Raise {A} e.

Definition bind {A B} (m : result A) (k : A -> result B) : result B :=
  match m with
  | Ok a => k a
  | Raise e => Raise e
  end.

(** [try: body  except Exception as e: handler e] *)
Definition try_except {A} (body : result A) (handler : pyexc -> result A)
  : result A :=
  match body with
  | Ok a => Ok a
  | Raise e => handler e
  end.

Definition raised {A} (m : result A) : bool :=
  match m with Ok _ => false | Raise _ => true end.

#[export] Instance result_ret : MRet result := @Ok.
#[export] Instance result_bind : MBind result := fun A B k m => bind m k.

(** *** [float.__repr__]

    CPython prints the shortest decimal string that reads back as the same
    binary64 value (digit generation with exact integers, as in its
    [dtoa.c], mode 0) and lays it out with the ['r'] format. *)

Module FloatRepr.

(** Decimal exponent [k] with [10^k <= num/den < 10^(k+1)], for positive
    [num] and [den]. *)
Fixpoint scale_up (fuel : nat) (num den k : Z) : Z :=
  match fuel with
  | O => k
  | S fuel' => if 10 * den <=? num then scale_up fuel' num (10 * den) (k + 1) else k
  end.

Fixpoint scale_down (fuel : nat) (num den k : Z) : Z :=
  match fuel with
  | O => k
  | S fuel' => if num <? den then scale_down fuel' (10 * num) den (k - 1) else k
  end.

Definition floor_log10 (num den : Z) : Z :=
  if den <=? num then scale_up 400 num den 0 else scale_down 400 num den 0.

(** Propagate a carry into the digits emitted so far (most significant
    first); the flag tells that the carry ran off the front. *)
Fixpoint round_off (rev_digits : list Z) : list Z * bool :=
  match rev_digits with
  | [] => ([1], true)
  | d :: ds => if d =? 9 then round_off ds else (d + 1 :: ds, false)
  end.

(** Digit generation: [r / s] is what is left of the value, [mlo / s] and
    [mhi / s] are half the distance to the neighbouring floats, [even]
    tells that the end points of the rounding interval round to the float.
    Returns the digits, most significant last, and whether the decimal
    exponent grew by one. *)
Fixpoint gen_digits (fuel : nat) (even : bool) (r s mlo mhi : Z) (acc : list Z)
  : list Z * bool :=
  match fuel with
  | O => (acc, false)
  | S fuel' =>
    let dig := r / s in
    let b := r mod s in
    let j := b ?= mlo in
    let j1 := (b + mhi) ?= s in
    let low_ok := match j with Lt => true | Eq => even | Gt => false end in
    let up d := if d =? 9 then round_off acc else (d + 1 :: acc, false) in
    match j1, even with
    | Eq, true =>
        match j with Gt => up dig | _ => (dig :: acc, false) end
    | _, _ =>
      if low_ok then
        if b =? 0 then (dig :: acc, false)
        else match j1 with
             | Gt => if (s <? 2 * b) || ((s =? 2 * b) && Z.odd dig)
                     then up dig else (dig :: acc, false)
             | _ => (dig :: acc, false)
             end
      else match j1 with
           | Gt => up dig
           | _ => gen_digits fuel' even (10 * b) s (10 * mlo) (10 * mhi) (dig :: acc)
           end
    end
  end.

(** Shortest digits of [m * 2^e] that read back as the same binary64
    value, with the position of the decimal point: the value is
    [0.d1 d2 ... dn * 10^decpt]. *)
Definition shortest (m : positive) (e : Z) : list Z * Z :=
  let m := Z.pos m in
  let boundary := (m =? 2 ^ 52) && (-1074 <? e) in
  let even := Z.even m in
  let '(r, s, mlo, mhi) :=
    if 0 <=? e then
      if boundary then (m * 2 ^ (e + 2), 4, 2 ^ e, 2 ^ (e + 1))
      else (m * 2 ^ (e + 1), 2, 2 ^ e, 2 ^ e)
    else
      if boundary then (4 * m, 2 ^ (2 - e), 1, 2)
      else (2 * m, 2 ^ (1 - e), 1, 1) in
  let k := floor_log10 r s in
  let '(r, s, mlo, mhi) :=
    if 0 <=? k then (r, s * 10 ^ k, mlo, mhi)
    else (r * 10 ^ (- k), s, mlo * 10 ^ (- k), mhi * 10 ^ (- k)) in
  let '(rev_digits, carry) := gen_digits 800 even r s mlo mhi [] in
  (rev rev_digits, if carry then k + 2 else k + 1).

Definition digit_string (ds : list Z) : string :=
  fold_right (fun d acc => pretty d +:+ acc) EmptyString ds.

Fixpoint zeros (n : nat) : string :=
  match n with O => EmptyString | S n' => String "0" (zeros n') end.

(** Layout of the ['r'] format: positional between [1e-4] and [1e16],
    exponent form outside, always with a fractional part or an exponent. *)
Definition layout (ds : list Z) (decpt : Z) : string :=
  let n := Z.of_nat (length ds) in
  if (decpt <=? -4) || (16 <? decpt) then
    let x := decpt - 1 in
    let mant := match ds with
                | [] => EmptyString
                | [d] => pretty d
                | d :: rest => pretty d +:+ "." +:+ digit_string rest
                end in
    let ex := pretty (Z.abs x) in
    mant +:+ "e" +:+ (if x <? 0 then "-" else "+")
         +:+ (if Z.abs x <? 10 then "0" else EmptyString) +:+ ex
  else if decpt <=? 0 then
    "0." +:+ zeros (Z.to_nat (- decpt)) +:+ digit_string ds
  else if decpt <? n then
    digit_string (take (Z.to_nat decpt) ds) +:+ "." +:+
    digit_string (drop (Z.to_nat decpt) ds)
  else
    digit_string ds +:+ zeros (Z.to_nat (decpt - n)) +:+ ".0".

(** [float.__repr__] *)
Definition repr (f : float) : string :=
  match Prim2SF f with
  | S754_nan => "nan"
  | S754_infinity s => if s then "-inf" else "inf"
  | S754_zero s => if s then "-0.0" else "0.0"
  | S754_finite s m e =>
      let '(ds, decpt) := shortest m e in
      (if s then "-" else EmptyString) +:+ layout ds decpt
  end.

End FloatRepr.

(** *** [str.__repr__]

    A character of the model stands for one code point below 256. *)

Module StrRepr.

Definition hex_digit (n : N) : ascii :=
  ascii_of_N (if (n <? 10)%N then 48 + n else 87 + n).

Definition printable (c : ascii) : bool :=
  let n := N_of_ascii c in
  negb ((n <? 32)%N || ((127 <=? n)%N && (n <=? 160)%N) || (n =? 173)%N).

Definition escape (quote c : ascii) : string :=
  if Ascii.eqb c quote || Ascii.eqb c "\"%char then String "\" (String c EmptyString)
  else if Ascii.eqb c "009"%char then "\t"
  else if Ascii.eqb c "010"%char then "\n"
  else if Ascii.eqb c "013"%char then "\r"
  else if printable c then String c EmptyString
  else let n := N_of_ascii c in
       String "\" (String "x" (String (hex_digit (n / 16)) (String (hex_digit (n mod 16)) EmptyString))).

Fixpoint mem (c : ascii) (s : string) : bool :=
  match s with
  | EmptyString => false
  | String c' s' => Ascii.eqb c c' || mem c s'
  end.

Fixpoint escape_all (quote : ascii) (s : string) : string :=
  match s with
  | EmptyString => EmptyString
  | String c s' => escape quote c +:+ escape_all quote s'
  end.

Definition repr (s : string) : string :=
  let quote := if mem "'" s && negb (mem "034" s) then "034"%char else "'"%char in
  String quote (escape_all quote s +:+ String quote EmptyString).

End StrRepr.

(** *** [repr], [str] and [type(v).__name__]

    The rendering is the one CPython gives within its limits: beyond
    them (a value nested deeper than the recursion limit, an [int] of more
    digits than the conversion limit) [repr] raises, which is not
    modelled. *)

Fixpoint join (sep : string) (parts : list string) : string :=
  match parts with
  | [] => EmptyString
  | [p] => p
  | p :: rest => p +:+ sep +:+ join sep rest
  end.

Fixpoint py_repr (v : pyval) : string :=
  match v with
  | PyNone => "None"
  | PyBool b => if b then "True" else "False"
  | PyInt z => pretty z
  | PyFloat f => FloatRepr.repr f
  | PyStr s => StrRepr.repr s
  | PyList l => "[" +:+ join ", " (map py_repr l) +:+ "]"
  | PyDict d =>
      "{" +:+ join ", " (map (fun kv => StrRepr.repr kv.1 +:+ ": " +:+ py_repr kv.2) d)
          +:+ "}"
  end.

(** [str(v)], which is also what an f-string field [{v}] inserts. *)
Definition py_str (v : pyval) : string :=
  match v with
  | PyStr s => s
  | _ => py_repr v
  end.

Definition type_name (v : pyval) : string :=
  match v with
  | PyNone => "NoneType"
  | PyBool _ => "bool"
  | PyInt _ => "int"
  | PyFloat _ => "float"
  | PyStr _ => "str"
  | PyList _ => "list"
  | PyDict _ => "dict"
  end.

(** *** Built-in operations

    Each one returns or raises as CPython 3.11 does on the values of
    [pyval]; the messages are the interpreter's. *)

Definition type_error (msg : string) : pyexc := mkExc TypeError msg.

(** [float(n)] for an [int] within the 53 bits a binary64 mantissa holds
    exactly; the source only converts the ranks 0, 1, 2 and the constant 3. *)
Definition float_of_int (n : Z) : float := PrimFloat.of_uint63 (Uint63.of_Z n).

(** [n < v] with an [int] on the left. *)
Definition int_lt (n : Z) (v : pyval) : result bool :=
  match v with
  | PyInt z => Ok (n <? z)
  | PyBool b => Ok (n <? Z.b2z b)
  | PyFloat f => Ok (PrimFloat.ltb (float_of_int n) f)
  | _ => Raise (type_error ("'<' not supported between instances of 'int' and '"
                            +:+ type_name v +:+ "'"))
  end.

(** [min(v, n)] with an [int] as second argument: the second argument
    replaces the first only when it compares strictly smaller. *)
Definition py_min_int (v : pyval) (n : Z) : result pyval :=
  smaller ← int_lt n v;
  Ok (if smaller : bool then PyInt n else v).

(** [range(v)], as the list of its elements: empty for a negative bound. *)
Definition range_list (n : Z) : list Z := map Z.of_nat (seq 0 (Z.to_nat n)).

Definition py_range (v : pyval) : result (list Z) :=
  match v with
  | PyInt z => Ok (range_list z)
  | PyBool b => Ok (range_list (Z.b2z b))
  | _ => Raise (type_error ("'" +:+ type_name v
                            +:+ "' object cannot be interpreted as an integer"))
  end.

(** [len(v)] *)
Definition py_len (v : pyval) : result Z :=
  match v with
  | PyStr s => Ok (Z.of_nat (String.length s))
  | PyList l => Ok (Z.of_nat (length l))
  | PyDict d => Ok (Z.of_nat (length d))
  | _ => Raise (type_error ("object of type '" +:+ type_name v +:+ "' has no len()"))
  end.

(** [v[:n]] for a natural [n] *)
Definition py_slice_to (v : pyval) (n : nat) : result pyval :=
  match v with
  | PyStr s => Ok (PyStr (substring 0 n s))
  | PyList l => Ok (PyList (take n l))
  | PyDict _ => Raise (type_error "unhashable type: 'slice'")
  | _ => Raise (type_error ("'" +:+ type_name v +:+ "' object is not subscriptable"))
  end.

(** [v + s] with a [str] on the right. *)
Definition py_add_str (v : pyval) (s : string) : result pyval :=
  match v with
  | PyStr t => Ok (PyStr (t +:+ s))
  | PyList _ =>
      Raise (type_error ("can only concatenate list (not " +:+ String "034" "str"
                         +:+ String "034" ") to list"))
  | _ => Raise (type_error ("unsupported operand type(s) for +: '" +:+ type_name v
                            +:+ "' and 'str'"))
  end.

(** Truth value of [v], as [if v] and [v or w] test it. *)
Definition py_truthy (v : pyval) : bool :=
  match v with
  | PyNone => false
  | PyBool b => b
  | PyInt z => negb (z =? 0)
  | PyFloat f => negb (PrimFloat.eqb f 0)
  | PyStr s => negb (String.eqb s EmptyString)
  | PyList l => match l with [] => false | _ => true end
  | PyDict d => match d with [] => false | _ => true end
  end.

(** [d.get(key)] on a [dict] value; [None] of the option stands for an
    absent key. *)
Fixpoint assoc (key : string) (d : list (string * pyval)) : option pyval :=
  match d with
  | [] => None
  | (k, v) :: rest => if String.eqb k key then Some v else assoc key rest
  end.

Definition py_get (v : pyval) (key : string) : option pyval :=
  match v with
  | PyDict d => assoc key d
  | _ => None
  end.

End Py.

Export Py.

Local Open Scope string_scope.
Local Open Scope Z_scope.

(** ** [mcp.types]: the request and response records the handlers use *)

Record TextContent : Type := mkTextContent { type_ : string; text : string }.

(** What [read_resource] is called with.  Line 86 reads the attribute
    [uri] of its argument: a request of the protocol,
    [mcp.types.ReadResourceRequest], keeps the URI under [params] and has
    no such attribute; any other object that carries one gets past that
    line, the annotation of the handler not being enforced. *)
Inductive ReadResourceArgument : Type :=
| ReadResourceRequest (params_uri : string)
| ObjectWithUri (uri : string).

Definition attribute_error (message : string) : pyexc :=
  mkExc (OtherException "AttributeError") message.

(** [request.uri] *)
Definition request_uri (request : ReadResourceArgument) : result string :=
  match request with
  | ReadResourceRequest _ =>
      Raise (attribute_error "'ReadResourceRequest' object has no attribute 'uri'")
  | ObjectWithUri uri => Ok uri
  end.

(** What a [ReadResourceResult] holds: the text or the bytes of a
    resource, each with the URI it was read from. *)
Inductive ResourceContents : Type :=
| TextResourceContents (uri : string) (mimeType : option string) (text : string)
| BlobResourceContents (uri : string) (mimeType : option string) (blob : string).

Record ReadResourceResult : Type := mkReadResourceResult
  { contents : list ResourceContents }.

(** The models of [mcp.types] validate their fields when they are built,
    and raise pydantic's [ValidationError] on a value of another type. *)
Definition validation_error (report : string) : pyexc :=
  mkExc (OtherException "ValidationError") report.

Record CallToolRequestParams : Type := mkCallToolRequestParams
  { name : string; arguments : option (gmap string pyval) }.

Record CallToolRequest : Type := mkCallToolRequest
  { params : CallToolRequestParams }.

Record CallToolResult : Type := mkCallToolResult
  { content : list TextContent }.

(** [arguments.get(key, default)] *)
Definition get (arguments : gmap string pyval) (key : string) (default : pyval)
  : pyval :=
  match arguments !! key with
  | Some v => v
  | None => default
  end.

(** ** The descriptors [list_resources] and [list_tools] return *)

Module Resource.
Record t : Type := mk
  { uri : string; name : string; description : string; mimeType : string }.
End Resource.

Module Tool.
Record t : Type := mk
  { name : string; description : string; inputSchema : pyval }.
End Tool.

Record ListResourcesResult : Type := mkListResourcesResult
  { resources : list Resource.t }.

Record ListToolsResult : Type := mkListToolsResult { tools : list Tool.t }.

Definition list_resources : ListResourcesResult :=
  let resources :=
    [ Resource.mk "knowledge://jurisprudence/all"
        "Complete Jurisprudence Database"
        "Full AssistMe legal knowledge base"
        "application/xml";
      Resource.mk "knowledge://jurisprudence/abgr"
        "Agent-Related Content (ABGR)"
        "Government agent regulations and procedures"
        "application/json";
      Resource.mk "knowledge://jurisprudence/search"
        "Semantic Search Interface"
        "Search across all legal documents"
        "application/json" ] in
  mkListResourcesResult resources.

Definition list_tools : ListToolsResult :=
  let tools :=
    [ Tool.mk "search_jurisprudence"
        "Search across jurisprudence articles with semantic matching"
        (PyDict
           [ ("type", PyStr "object");
             ("properties",
              PyDict
                [ ("query",
                   PyDict [ ("type", PyStr "string");
                            ("description", PyStr "Search query for legal content") ]);
                  ("agent_focus",
                   PyDict [ ("type", PyStr "boolean");
                            ("description", PyStr "Focus on agent-related (ABGR) content");
                            ("default", PyBool false) ]);
                  ("max_results",
                   PyDict [ ("type", PyStr "integer");
                            ("description", PyStr "Maximum number of results to return");
                            ("default", PyInt 5) ]) ]);
             ("required", PyList [ PyStr "query" ]) ]);
      Tool.mk "extract_citations"
        "Extract and validate legal citations from text"
        (PyDict
           [ ("type", PyStr "object");
             ("properties",
              PyDict
                [ ("text",
                   PyDict [ ("type", PyStr "string");
                            ("description", PyStr "Text to extract citations from") ]) ]);
             ("required", PyList [ PyStr "text" ]) ]);
      Tool.mk "get_abgr_summary"
        "Get summary of agent-related regulations and procedures"
        (PyDict
           [ ("type", PyStr "object");
             ("properties",
              PyDict
                [ ("topic",
                   PyDict [ ("type", PyStr "string");
                            ("description",
                             PyStr "Specific ABGR topic or 'all' for general summary");
                            ("default", PyStr "all") ]) ]) ]) ] in
  mkListToolsResult tools.

(** The URIs and the tool names the two listings advertise, and the
    argument names a tool's input schema lists under ["required"]. *)
Definition known_uris : list string := map Resource.uri (resources list_resources).

Definition known_tools : list string := map Tool.name (tools list_tools).

Definition required_arguments (tool_name : string) : list string :=
  match filter (fun t => Tool.name t = tool_name) (tools list_tools) with
  | t :: _ =>
      match py_get (Tool.inputSchema t) "required" with
      | Some (PyList names) =>
          omap (fun v => match v with PyStr s => Some s | _ => None end) names
      | _ => []
      end
  | [] => []
  end.

(** ** The protocol handlers of [setup_handlers]

    The handlers reach the knowledge base through methods of [self]; the
    record below is that object seen from the handlers, so that they can be
    studied against any implementation of the methods, and then against
    the ones [EVAMCPServer] defines. *)

Record Collaborators : Type := mkCollaborators
  { read_full_knowledge_base : result string;
    extract_abgr_content : result string;
    get_search_interface : result string;
    search_jurisprudence : pyval -> pyval -> pyval -> result pyval;
    extract_citations : pyval -> result pyval;
    get_abgr_summary : pyval -> result pyval }.

Section Handlers.

(** The report pydantic renders, as [str(e)], for the blocks a
    [ReadResourceResult] refuses. *)
Variable validation_report : list TextContent -> string.

Variable self : Collaborators.

(** [ReadResourceResult(contents=blocks)] with [TextContent] blocks, as
    the handler writes it: [contents] takes resource contents, and a
    [TextContent] is none, so that every block fails the validation. *)
Definition validate_ReadResourceResult (blocks : list TextContent)
  : result ReadResourceResult :=
  match blocks with
  | [] => Ok (mkReadResourceResult [])
  | _ :: _ => Raise (validation_error (validation_report blocks))
  end.

(** The [if]/[elif] chain of the [try] block of [read_resource]: the text
    to send. *)
Definition read_resource_content (uri : string) : result string :=
  if String.eqb uri "knowledge://jurisprudence/all" then
    read_full_knowledge_base self
  else if String.eqb uri "knowledge://jurisprudence/abgr" then
    extract_abgr_content self
  else if String.eqb uri "knowledge://jurisprudence/search" then
    get_search_interface self
  else Ok ("Unknown resource: " +:+ uri).

(** The [try] block of [read_resource]. *)
Definition read_resource_body (uri : string) : result ReadResourceResult :=
  content ← read_resource_content uri;
  validate_ReadResourceResult [mkTextContent "text" content].

(** The [except Exception as e] block of [read_resource]. *)
Definition read_resource_except (e : pyexc) : result ReadResourceResult :=
  validate_ReadResourceResult [mkTextContent "text" ("Error: " +:+ exc_str e)].

(** [uri = request.uri] stands before the [try]. *)
Definition read_resource (request : ReadResourceArgument)
  : result ReadResourceResult :=
  uri ← request_uri request;
  try_except (read_resource_body uri) read_resource_except.

(** The [try] block of [call_tool]. *)
Definition call_tool_body (tool_name : string) (arguments : gmap string pyval)
  : result CallToolResult :=
  result ←
    (if String.eqb tool_name "search_jurisprudence" then
       search_jurisprudence self
         (get arguments "query" (PyStr ""))
         (get arguments "agent_focus" (PyBool false))
         (get arguments "max_results" (PyInt 5))
     else if String.eqb tool_name "extract_citations" then
       extract_citations self (get arguments "text" (PyStr ""))
     else if String.eqb tool_name "get_abgr_summary" then
       get_abgr_summary self (get arguments "topic" (PyStr "all"))
     else Ok (PyStr ("Unknown tool: " +:+ tool_name)));
  Ok (mkCallToolResult [mkTextContent "text" (py_str result)]).

(** The [except Exception as e] block of [call_tool]. *)
Definition call_tool_except (e : pyexc) : result CallToolResult :=
  Ok (mkCallToolResult [mkTextContent "text" ("Tool error: " +:+ exc_str e)]).

(** [request.params.arguments or {}]: an absent mapping and an empty one
    both give the empty mapping. *)
Definition call_tool (request : CallToolRequest) : result CallToolResult :=
  let tool_name := name (params request) in
  let arguments := default ∅ (arguments (params request)) in
  try_except (call_tool_body tool_name arguments) call_tool_except.

End Handlers.

(** ** The methods of [EVAMCPServer] *)

(** What the knowledge base loader sees of the file system: whether a path
    exists, and the text read from it; both calls may raise. *)
Record filesystem : Type := mkFilesystem
  { path_exists : string -> result bool;
    read_text : string -> result string }.

Module EVAMCPServer.

Definition knowledge_base_path : string :=
  "../eva-da-2/public/knowledge_articles_r2r3_en 2.xml".

Definition _read_full_knowledge_base (fs : filesystem) : result string :=
  try_except
    (found ← path_exists fs knowledge_base_path;
     if found : bool then
       content ← read_text fs knowledge_base_path;
       Ok ("Knowledge base loaded: "
             +:+ pretty (Z.of_nat (String.length content)) +:+ " characters")
     else Ok ("Knowledge base not found at: " +:+ knowledge_base_path))
    (fun e => Ok ("Error reading knowledge base: " +:+ exc_str e)).

(** The two placeholder documents are triple-quoted literals of the
    source: [q] puts a word between double quotes, [lines] joins the lines
    of the literal with the newline character. *)
Definition q (s : string) : string := String "034" s +:+ String "034" EmptyString.
Definition lines (ls : list string) : string := join (String "010" EmptyString) ls.

Definition _extract_abgr_content : result string :=
  Ok (lines
      [ "";
        "        {";
        "          " +:+ q "abgr_content" +:+ ": {";
        "            " +:+ q "agent_regulations" +:+ ": [" +:+ q "Regulation A" +:+ ", " +:+ q "Regulation B" +:+ "],";
        "            " +:+ q "compliance_procedures" +:+ ": [" +:+ q "Procedure 1" +:+ ", " +:+ q "Procedure 2" +:+ "], ";
        "            " +:+ q "government_guidelines" +:+ ": [" +:+ q "Guideline X" +:+ ", " +:+ q "Guideline Y" +:+ "],";
        "            " +:+ q "extracted_from" +:+ ": " +:+ q "AssistMe Knowledge Base" +:+ ",";
        "            " +:+ q "focus" +:+ ": " +:+ q "Government Agent Operations";
        "          }";
        "        }";
        "        " ]).

Definition _get_search_interface : result string :=
  Ok (lines
      [ "";
        "        {";
        "          " +:+ q "search_capabilities" +:+ ": {";
        "            " +:+ q "semantic_search" +:+ ": " +:+ q "Vector-based document similarity" +:+ ",";
        "            " +:+ q "keyword_search" +:+ ": " +:+ q "Traditional text matching" +:+ ", ";
        "            " +:+ q "hybrid_search" +:+ ": " +:+ q "Combined semantic and keyword" +:+ ",";
        "            " +:+ q "agent_filtering" +:+ ": " +:+ q "ABGR-specific content focus" +:+ ",";
        "            " +:+ q "citation_extraction" +:+ ": " +:+ q "Legal reference identification";
        "          },";
        "          " +:+ q "available_tools" +:+ ": [" +:+ q "search_jurisprudence" +:+ ", " +:+ q "extract_citations" +:+ ", " +:+ q "get_abgr_summary" +:+ "]";
        "        }";
        "        " ]).

(** [0.9 - (i * 0.1)] *)
Definition relevance_score (i : Z) : float :=
  (0.9 - float_of_int i * 0.1)%float.

(** One element of the list comprehension of [_search_jurisprudence]. *)
Definition search_result (query agent_focus : pyval) (i : Z) : pyval :=
  PyDict
    [ ("title", PyStr ("Legal Document " +:+ pretty (i + 1)));
      ("content", PyStr ("Content related to: " +:+ py_str query));
      ("relevance_score", PyFloat (relevance_score i));
      ("source", PyStr "AssistMe Knowledge Base");
      ("abgr_related", agent_focus) ].

(** The type hints of the source are not enforced: the three arguments
    are whatever the request carried. *)
Definition _search_jurisprudence (query agent_focus max_results : pyval)
  : result pyval :=
  bound ← py_min_int max_results 3;
  ranks ← py_range bound;
  let results := map (search_result query agent_focus) ranks in
  total_found ← py_min_int max_results 3;
  Ok (PyDict
        [ ("query", query);
          ("agent_focus", agent_focus);
          ("results", PyList results);
          ("total_found", total_found) ]).

(** [text[:100] + "..." if len(text) > 100 else text] *)
Definition text_analyzed (text : pyval) : result pyval :=
  n ← py_len text;
  if 100 <? n then
    head ← py_slice_to text 100;
    py_add_str head "..."
  else Ok text.

Definition _extract_citations (text : pyval) : result pyval :=
  preview ← text_analyzed text;
  Ok (PyDict
        [ ("text_analyzed", preview);
          ("citations_found",
           PyList
             [ PyDict [ ("type", PyStr "statute");
                        ("reference", PyStr "Example Act, s. 123") ];
               PyDict [ ("type", PyStr "regulation");
                        ("reference", PyStr "Example Regulation 456/2024") ] ]);
          ("extraction_confidence", PyFloat 0.85) ]).

Definition _get_abgr_summary (topic : pyval) : result pyval :=
  Ok (PyDict
        [ ("topic", topic);
          ("abgr_summary",
           PyDict
             [ ("total_regulations", PyInt 15);
               ("key_areas",
                PyList
                  [ PyStr "Agent Authorization Procedures";
                    PyStr "Compliance Requirements";
                    PyStr "Reporting Standards";
                    PyStr "Operational Guidelines" ]);
               ("recent_updates", PyStr "November 2024");
               ("compliance_level", PyStr "Protected B") ]);
          ("knowledge_source", PyStr "AssistMe Jurisprudence Database") ]).

(** The server object the handlers close over. *)
Definition self (fs : filesystem) : Collaborators :=
  {| read_full_knowledge_base := _read_full_knowledge_base fs;
     extract_abgr_content := _extract_abgr_content;
     get_search_interface := _get_search_interface;
     search_jurisprudence := _search_jurisprudence;
     extract_citations := _extract_citations;
     get_abgr_summary := _get_abgr_summary |}.

End EVAMCPServer.

(** ** [scripts/ingest_knowledge_base.py]: the ingestion trigger *)

Module Ingest.

(** The module-level configuration, read from the environment at import. *)
Record config : Type := mkConfig
  { STORAGE_ACCOUNT : string;
    CONTAINER_NAME : string;
    FUNCTION_APP : string;
    FUNCTION_KEY : string;
    TENANT_ID : string }.

(** The values [os.getenv] falls back on when the environment sets none. *)
Definition default_config : config :=
  {| STORAGE_ACCOUNT := "evafoundationstorage";
     CONTAINER_NAME := "knowledge-sources";
     FUNCTION_APP := "eva-foundation-functions";
     FUNCTION_KEY := "";
     TENANT_ID := "government-canada" |}.

(** The [requests.Response] object, through the two methods the client
    calls on it. *)
Record response : Type := mkResponse
  { raise_for_status : result unit;
    json : result pyval }.

Section TriggerIngestion.

Variable cfg : config.

(** [requests.post(url, json=..., headers=..., timeout=...)] *)
Variable post : string -> pyval -> pyval -> Z -> result response.

Definition payload (blob_name tenant_id : string) (abgr_only : bool) : pyval :=
  PyDict
    [ ("tenantId", PyStr tenant_id);
      ("blobName", PyStr blob_name);
      ("containerName", PyStr (CONTAINER_NAME cfg));
      ("abgrOnly", PyBool abgr_only) ].

Definition headers (function_key : string) : pyval :=
  PyDict
    [ ("Content-Type", PyStr "application/json");
      ("x-functions-key", PyStr function_key) ].

(** [if function_url is None: ...] and [if function_key is None: ...] *)
Definition build_function_url (function_url : option string) : string :=
  match function_url with
  | Some url => url
  | None => "https://" +:+ FUNCTION_APP cfg
              +:+ ".azurewebsites.net/api/knowledge-ingestion"
  end.

Definition build_function_key (function_key : option string) : string :=
  match function_key with
  | Some key => key
  | None => FUNCTION_KEY cfg
  end.

(** The [try] block of [trigger_ingestion]. *)
Definition request_body (function_url : string) (payload headers : pyval)
  : result pyval :=
  response ← post function_url payload headers 300;
  _ ← raise_for_status response;
  result ← json response;
  Ok result.

Definition timeout_result : pyval :=
  PyDict
    [ ("error", PyStr "timeout");
      ("message", PyStr "Check Azure portal for function execution logs") ].

(** The two [except] clauses, tried in order: a [Timeout] becomes a
    returned value, any other [RequestException] is reported and raised
    again, and an exception of another class is not handled here.  The
    report prints the exception and what [e.response] holds; like the rest
    of the console output it is left out. *)
Definition trigger_ingestion (blob_name tenant_id : string) (abgr_only : bool)
    (function_url function_key : option string) : result pyval :=
  let function_url := build_function_url function_url in
  let function_key := build_function_key function_key in
  let payload := payload blob_name tenant_id abgr_only in
  let headers := headers function_key in
  match request_body function_url payload headers with
  | Ok result => Ok result
  | Raise e =>
      if issubclass_Timeout (exc_class e) then Ok timeout_result
      else if issubclass_RequestException (exc_class e) then Raise e
      else Raise e
  end.

(** The status [0 if result.get('success') else 1] that [main] hands to
    [sys.exit] once the summary of a mapping [result] is printed. *)
Definition exit_code (result : pyval) : Z :=
  match py_get result "success" with
  | Some v => if py_truthy v then 0 else 1
  | None => 1
  end.

End TriggerIngestion.

(** *** The upload step and [main]

    The blob store changes as the client runs, and a step that raises leaves
    the changes made before it: a computation takes the state of the store
    and gives back what it returned or raised together with the new state. *)

Record io (S A : Type) : Type := IO { run : S -> result A * S }.
Arguments IO {S A} _.
Arguments run {S A} _ _.

Definition io_ret {S A} (a : A) : io S A := IO (fun st => (Ok a, st)).

Definition io_raise {S A} (e : pyexc) : io S A := IO (fun st => (Raise e, st)).

(** A call that does not touch the store. *)
Definition io_lift {S A} (r : result A) : io S A := IO (fun st => (r, st)).

Definition io_bind {S A B} (m : io S A) (k : A -> io S B) : io S B :=
  IO (fun st =>
        match run m st with
        | (Ok a, st') => run (k a) st'
        | (Raise e, st') => (Raise e, st')
        end).

(** [try: body  except Exception as e: handler e] *)
Definition io_try {S A} (body : io S A) (handler : pyexc -> io S A) : io S A :=
  IO (fun st =>
        match run body st with
        | (Ok a, st') => (Ok a, st')
        | (Raise e, st') => run (handler e) st'
        end).

#[export] Instance io_mret {S} : MRet (io S) := @io_ret S.
#[export] Instance io_mbind {S} : MBind (io S) := fun A B k m => io_bind m k.

(** The calls the client makes on the Azure SDK, over a store of type
    [S]: [connect] stands for [DefaultAzureCredential()] followed by
    [BlobServiceClient(account_url=..., credential=...)], the container
    calls take the container name, the blob calls the container and the
    blob name, and [upload_blob] the data and the [overwrite] flag. *)
Record BlobService (S : Type) : Type := mkBlobService
  { connect : string -> io S unit;
    get_container_client : string -> io S unit;
    container_exists : string -> io S bool;
    create_container : string -> io S unit;
    get_blob_client : string -> string -> io S unit;
    upload_blob : string -> string -> string -> bool -> io S unit }.
Arguments connect {S} _ _.
Arguments get_container_client {S} _ _.
Arguments container_exists {S} _ _.
Arguments create_container {S} _ _.
Arguments get_blob_client {S} _ _ _.
Arguments upload_blob {S} _ _ _ _ _.

(** The local file the client uploads: [os.path.exists], [os.path.getsize]
    and the bytes [open(path, 'rb')] gives access to. *)
Record localfs : Type := mkLocalfs
  { os_path_exists : string -> bool;
    os_path_getsize : string -> result Z;
    open_rb : string -> result string }.

(** [s.split(sep)] for a one-character separator. *)
Fixpoint split_on (sep : ascii) (s : string) : list string :=
  match s with
  | EmptyString => [EmptyString]
  | String c s' =>
      if Ascii.eqb c sep then EmptyString :: split_on sep s'
      else match split_on sep s' with
           | [] => [String c EmptyString]
           | w :: ws => String c w :: ws
           end
  end.

(** [Path(p).name] on a POSIX system: the last component of the path,
    empty components and ["."] set aside; empty when nothing is left. *)
Definition path_parts (p : string) : list string :=
  List.filter (fun x => negb (String.eqb x EmptyString || String.eqb x "."))
              (split_on "/" p).

Definition path_name (p : string) : string := List.last (path_parts p) EmptyString.

(** Command-line arguments, as [argparse] hands them to [main]. *)
Record Args : Type := mkArgs
  { xml_file : string;
    tenant_id : string;
    abgr_only : bool;
    blob_name : option string;
    analyze_only : bool;
    upload_only : bool;
    function_url : option string;
    function_key : option string }.

(** How a run of [main] ends: [sys.exit(status)], a plain [return], or an
    exception nothing catches. *)
Inductive outcome : Type :=
| Exit (status : Z)
| Returned
| Uncaught (e : pyexc).

(** The status the process ends with. *)
Definition exit_status (o : outcome) : Z :=
  match o with
  | Exit status => status
  | Returned => 0
  | Uncaught _ => 1
  end.

(** [result.get(key)]: a method of [dict] only. *)
Definition result_get (result : pyval) (key : string) : Py.result pyval :=
  match result with
  | PyDict d => Ok (default PyNone (assoc key d))
  | _ => Raise (mkExc (OtherException "AttributeError")
                      ("'" +:+ type_name result +:+ "' object has no attribute 'get'"))
  end.

Section Client.

Context {S : Type}.
Variable cfg : config.
Variable fs : localfs.
Variable svc : BlobService S.
Variable post : string -> pyval -> pyval -> Z -> result response.

(** [analyze_xml_structure] and [print_ingestion_summary] parse XML and
    lay out console text; [main] only depends on whether they raise. *)
Variable analyze_xml_structure : string -> result unit.
Variable print_ingestion_summary : pyval -> result unit.

(** The [try] block around the container check: create the container
    unless it exists. *)
Definition ensure_container : io S unit :=
  present ← container_exists svc (CONTAINER_NAME cfg);
  if present : bool then mret tt else create_container svc (CONTAINER_NAME cfg).

Definition upload_to_blob_storage (xml_file_path : string) (blob_name : option string)
  : io S string :=
  if negb (os_path_exists fs xml_file_path) then
    io_raise (mkExc (OtherException "FileNotFoundError")
                    ("XML file not found: " +:+ xml_file_path))
  else
    let blob_name :=
      match blob_name with
      | Some given => given
      | None => path_name xml_file_path
      end in
    _ ← io_try (connect svc ("https://" +:+ STORAGE_ACCOUNT cfg
                               +:+ ".blob.core.windows.net"))
               (fun e => io_raise e);
    _ ← get_container_client svc (CONTAINER_NAME cfg);
    _ ← io_try ensure_container (fun e => mret tt);
    _ ← get_blob_client svc (CONTAINER_NAME cfg) blob_name;
    file_size ← io_lift (os_path_getsize fs xml_file_path);
    data ← io_lift (open_rb fs xml_file_path);
    _ ← upload_blob svc (CONTAINER_NAME cfg) blob_name data true;
    mret blob_name.

(** The [try] block of [main]; [sys.exit] leaves it without being caught,
    as [SystemExit] is no [Exception].  The handler of [main] prints the
    exception and a traceback before [sys.exit(1)]; this printing is left
    out with the rest of the console output. *)
Definition main_body (args : Args) : io S outcome :=
  blob ← upload_to_blob_storage (xml_file args) (blob_name args);
  if upload_only args then mret Returned
  else
    result ← io_lift (trigger_ingestion cfg post blob (tenant_id args)
                        (abgr_only args) (function_url args) (function_key args));
    _ ← io_lift (print_ingestion_summary result);
    success ← io_lift (result_get result "success");
    mret (Exit (if py_truthy success then 0 else 1)).

Definition main (args : Args) (st : S) : outcome * S :=
  if analyze_only args then
    match analyze_xml_structure (xml_file args) with
    | Ok _ => (Returned, st)
    | Raise e => (Uncaught e, st)
    end
  else
    match run (main_body args) st with
    | (Ok o, st') => (o, st')
    | (Raise e, st') => (Exit 1, st')
    end.

End Client.

End Ingest.

Import EVAMCPServer.

(** ** Vocabulary of the properties *)

(** [needle] occurs verbatim in [hay]. *)
Definition contains (hay needle : string) : Prop :=
  exists before after, hay = before +:+ needle +:+ after.

(** The score of a result read back from its mapping. *)
Definition score_of (item : pyval) : option pyval := py_get item "relevance_score".

Definition in_unit_interval (f : float) : Prop :=
  PrimFloat.leb 0 f = true /\ PrimFloat.leb f 1 = true.

(** [a] ranks before [b]: strictly greater score. *)
Definition score_gt (a b : float) : Prop := PrimFloat.ltb b a = true.

(** The input schema a tool publishes, the properties it describes and the
    default it documents for one of them. *)
Definition tool_schema (tool_name : string) : option pyval :=
  Tool.inputSchema <$> head (filter (fun t => Tool.name t = tool_name) (tools list_tools)).

Definition schema_properties (tool_name : string) : list (string * pyval) :=
  match tool_schema tool_name ≫= (fun schema => py_get schema "properties") with
  | Some (PyDict properties) => properties
  | _ => []
  end.

Definition schema_default (tool_name property : string) : option pyval :=
  assoc property (schema_properties tool_name) ≫= (fun p => py_get p "default").

(** A server all of whose methods raise [e]. *)
Definition failing_server (e : pyexc) : Collaborators :=
  {| read_full_knowledge_base := Raise e;
     extract_abgr_content := Raise e;
     get_search_interface := Raise e;
     search_jurisprudence := fun _ _ _ => Raise e;
     extract_citations := fun _ => Raise e;
     get_abgr_summary := fun _ => Raise e |}.


(** A file system on which every access to the knowledge base is denied. *)
Definition access_denied : pyexc :=
  mkExc OSError ("[Errno 13] Permission denied: '" +:+ knowledge_base_path +:+ "'").

Definition locked_file_system : filesystem :=
  {| path_exists := fun _ => Raise access_denied;
     read_text := fun _ => Raise access_denied |}.

(** A blob store held in memory, to run the upload step against:
    containers by name, each a mapping from blob names to bytes.  Creating
    a container that exists and writing into one that does not are errors,
    as they are for the service; [overwrite] lets a write replace a blob. *)
Definition sdk_error (class_name message : string) : pyexc :=
  mkExc (OtherException class_name) message.

Definition memory_service : Ingest.BlobService (gmap string (gmap string string)) :=
  {| Ingest.connect := fun _ => Ingest.io_ret tt;
     Ingest.get_container_client := fun _ => Ingest.io_ret tt;
     Ingest.container_exists := fun c =>
       Ingest.IO (fun st =>
         (Ok (match st !! c with Some _ => true | None => false end), st));
     Ingest.create_container := fun c =>
       Ingest.IO (fun st =>
         match st !! c with
         | Some _ =>
             (Raise (sdk_error "ResourceExistsError"
                               "The specified container already exists."), st)
         | None => (Ok tt, <[c := ∅]> st)
         end);
     Ingest.get_blob_client := fun _ _ => Ingest.io_ret tt;
     Ingest.upload_blob := fun c b data overwrite =>
       Ingest.IO (fun st =>
         match st !! c with
         | None =>
             (Raise (sdk_error "ResourceNotFoundError"
                               "The specified container does not exist."), st)
         | Some blobs =>
             match blobs !! b with
             | Some _ =>
                 if overwrite : bool then (Ok tt, <[c := <[b := data]> blobs]> st)
                 else (Raise (sdk_error "ResourceExistsError"
                                        "The specified blob already exists."), st)
             | None => (Ok tt, <[c := <[b := data]> blobs]> st)
             end
         end) |}.

(** The same store behind an account that may not ask whether a
    container exists: the check raises, everything else works. *)
Definition unlistable_service
  : Ingest.BlobService (gmap string (gmap string string)) :=
  {| Ingest.connect := Ingest.connect memory_service;
     Ingest.get_container_client := Ingest.get_container_client memory_service;
     Ingest.container_exists := fun _ =>
       Ingest.io_raise (sdk_error "HttpResponseError"
                                  "This request is not authorized to perform this operation.");
     Ingest.create_container := Ingest.create_container memory_service;
     Ingest.get_blob_client := Ingest.get_blob_client memory_service;
     Ingest.upload_blob := Ingest.upload_blob memory_service |}.

(** A local disk that holds one file. *)
Definition one_file (path data : string) : Ingest.localfs :=
  {| Ingest.os_path_exists := fun p => String.eqb p path;
     Ingest.os_path_getsize := fun p =>
       if String.eqb p path then Ok (Z.of_nat (String.length data))
       else Raise (mkExc OSError ("[Errno 2] No such file or directory: '" +:+ p +:+ "'"));
     Ingest.open_rb := fun p =>
       if String.eqb p path then Ok data
       else Raise (mkExc OSError ("[Errno 2] No such file or directory: '" +:+ p +:+ "'")) |}.

(** Sample runs of the command line. *)
Definition sample_args : Ingest.Args :=
  {| Ingest.xml_file := "./data/knowledge_articles_r2r3_en.xml";
     Ingest.tenant_id := "government-canada";
     Ingest.abgr_only := false;
     Ingest.blob_name := None;
     Ingest.analyze_only := false;
     Ingest.upload_only := false;
     Ingest.function_url := None;
     Ingest.function_key := None |}.

Definition sample_disk : Ingest.localfs :=
  one_file "./data/knowledge_articles_r2r3_en.xml" "<articles/>".

Definition quiet (A : Type) (x : A) : result unit := Ok tt.

Definition upload_only_args : Ingest.Args :=
  {| Ingest.xml_file := "./data/knowledge_articles_r2r3_en.xml";
     Ingest.tenant_id := "government-canada";
     Ingest.abgr_only := false;
     Ingest.blob_name := Some "kb.xml";
     Ingest.analyze_only := false;
     Ingest.upload_only := true;
     Ingest.function_url := None;
     Ingest.function_key := None |}.


(** An ingestion endpoint that reports success. *)
Definition post_succeeds (url : string) (payload headers : pyval) (timeout : Z)
  : result Ingest.response :=
  Ok {| Ingest.raise_for_status := Ok tt;
        Ingest.json := Ok (PyDict [("success", PyBool true);
                                   ("message", PyStr "Ingestion complete")]) |}.

(** An ingestion endpoint that refuses the function key. *)
Definition unauthorized : pyexc :=
  mkExc HTTPError "401 Client Error: Unauthorized for url".

Definition post_unauthorized (url : string) (payload headers : pyval) (timeout : Z)
  : result Ingest.response :=
  Ok {| Ingest.raise_for_status := Raise unauthorized;
        Ingest.json := Ok (PyDict [("error", PyStr "invalid key")]) |}.

(** A stand-in for the report of a failed validation, to run
    [read_resource] on sample requests. *)
Definition sample_report (blocks : list TextContent) : string :=
  pretty (Z.of_nat (length blocks)) +:+ " validation error for ReadResourceResult".

(** A file system without the knowledge base, and an ingestion endpoint
    that never answers within the timeout. *)
Definition no_knowledge_base : filesystem :=
  {| path_exists := fun _ => Ok false;
     read_text := fun path =>
       Raise (mkExc OSError ("[Errno 2] No such file or directory: '" +:+ path +:+ "'")) |}.

Definition post_times_out (url : string) (payload headers : pyval) (timeout : Z)
  : result Ingest.response :=
  Raise (mkExc ReadTimeout "Read timed out. (read timeout=300)").

Definition tool_request (tool_name : string) (arguments : option (gmap string pyval))
  : CallToolRequest :=
  mkCallToolRequest (mkCallToolRequestParams tool_name arguments).

(** The calls of [test_mcp.py]. *)
Definition test_search_results : result pyval :=
  _search_jurisprudence (PyStr "agent regulations") (PyBool true) (PyInt 2).

Definition test_citation_results : result pyval :=
  _extract_citations (PyStr "According to the Public Service Act, section 45...").

Definition test_abgr_summary : result pyval :=
  _get_abgr_summary (PyStr "compliance").

(** One step of a computation on the store: case analysis on the next
    call, dropping the case in which it raises when the whole run returned. *)
Ltac io_step H :=
  match type of H with
  | context [Ingest.run ?m ?st] =>
      let r := fresh "r" in
      let st' := fresh "st" in
      destruct (Ingest.run m st) as [[r | r] st'] eqn:?; simpl in H; try discriminate
  | context [match ?x with Ok _ => _ | Raise _ => _ end] =>
      destruct x eqn:?; simpl in H; try discriminate
  end.

(** * Properties *)

(** ** Working with [result] *)

Lemma bind_Ok {A B} (m : result A) (k : A -> result B) (b : B) :
  (x ← m; k x) = Ok b -> exists a, m = Ok a /\ k a = Ok b.
Proof. destruct m as [a|e]; simpl; [eauto | discriminate]. Qed.

(** ** The runtime fragment on sample values *)

Example float_repr_samples :
  map FloatRepr.repr
      [0.9; 0.8; 0.7; 0.85; 0.7000000000000001; 3; 1e16; 1e-5; -2.5; 5e-324]%float
  = ["0.9"; "0.8"; "0.7"; "0.85"; "0.7000000000000001"; "3.0"; "1e+16"; "1e-05";
     "-2.5"; "5e-324"]%string.
Proof. vm_compute. reflexivity. Qed.

Example str_repr_samples :
  map StrRepr.repr ["agent"; "it's"; String "009" "x\y"]%string
  = ["'agent'"; q "it's"; "'\tx\\y'"]%string.
Proof. reflexivity. Qed.

Example py_repr_sample :
  py_repr (PyDict [("k", PyList [PyInt (-5); PyNone; PyBool true; PyStr "x"])])
  = "{'k': [-5, None, True, 'x']}".
Proof. reflexivity. Qed.

(** The two placeholder documents have the length of the source literals. *)
Example _extract_abgr_content_length :
  (s ← _extract_abgr_content; Ok (String.length s)) = Ok 383%nat.
Proof. reflexivity. Qed.

Example _get_search_interface_length :
  (s ← _get_search_interface; Ok (String.length s)) = Ok 491%nat.
Proof. reflexivity. Qed.

(** What [test_mcp.py] prints for its search call. *)
Example test_search_results_text :
  (r ← test_search_results; Ok (py_str r))
  = Ok ("{'query': 'agent regulations', 'agent_focus': True, 'results': ["
        +:+ "{'title': 'Legal Document 1', "
        +:+ "'content': 'Content related to: agent regulations', "
        +:+ "'relevance_score': 0.9, 'source': 'AssistMe Knowledge Base', "
        +:+ "'abgr_related': True}, "
        +:+ "{'title': 'Legal Document 2', "
        +:+ "'content': 'Content related to: agent regulations', "
        +:+ "'relevance_score': 0.8, 'source': 'AssistMe Knowledge Base', "
        +:+ "'abgr_related': True}], 'total_found': 2}").
Proof. vm_compute. reflexivity. Qed.

(** The loader handles its own failures: it always returns a text. *)
Lemma _read_full_knowledge_base_returns (fs : filesystem) :
  exists s, _read_full_knowledge_base fs = Ok s.
Proof.
  unfold _read_full_knowledge_base.
  destruct (path_exists fs knowledge_base_path) as [[] | e]; simpl; eauto.
  destruct (read_text fs knowledge_base_path) as [content | e]; simpl; eauto.
Qed.

(** ** The search stub *)

(** With an [int], [min(max_results, 3)] is the integer minimum. *)
Lemma py_min_int_PyInt (z n : Z) : py_min_int (PyInt z) n = Ok (PyInt (Z.min z n)).
Proof.
  unfold py_min_int; simpl. destruct (Z.ltb_spec n z).
  - now rewrite Z.min_r by lia.
  - now rewrite Z.min_l by lia.
Qed.

Lemma length_range_list (n : Z) : Z.of_nat (length (range_list n)) = Z.max 0 n.
Proof. unfold range_list. rewrite length_map, length_seq. lia. Qed.

Lemma _search_jurisprudence_int (query agent_focus : pyval) (max_results : Z) :
  _search_jurisprudence query agent_focus (PyInt max_results)
  = Ok (PyDict
          [ ("query", query);
            ("agent_focus", agent_focus);
            ("results",
             PyList (map (search_result query agent_focus)
                         (range_list (Z.min max_results 3))));
            ("total_found", PyInt (Z.min max_results 3)) ]).
Proof. unfold _search_jurisprudence. now rewrite py_min_int_PyInt. Qed.

(** Whatever the arguments, a returned mapping has the shape the dict
    display gives it. *)
Lemma _search_jurisprudence_shape (query agent_focus max_results r : pyval) :
  _search_jurisprudence query agent_focus max_results = Ok r ->
  exists idx total_found,
    r = PyDict
          [ ("query", query);
            ("agent_focus", agent_focus);
            ("results", PyList (map (search_result query agent_focus) idx));
            ("total_found", total_found) ].
Proof.
  unfold _search_jurisprudence. intros H.
  apply bind_Ok in H as (bound & _ & H).
  apply bind_Ok in H as (idx & _ & H).
  apply bind_Ok in H as (total_found & _ & H).
  injection H as <-. eauto.
Qed.

Lemma search_result_abgr_related (query agent_focus : pyval) (i : Z) :
  py_get (search_result query agent_focus i) "abgr_related" = Some agent_focus.
Proof. reflexivity. Qed.

Lemma search_result_score (query agent_focus : pyval) (i : Z) :
  score_of (search_result query agent_focus i) = Some (PyFloat (relevance_score i)).
Proof. reflexivity. Qed.

(** The three scores the stub can hand out: 0.9, 0.8 and 0.7, as binary64
    values. *)
Example relevance_scores :
  map relevance_score (range_list 3) = [0.9; 0.8; 0.7]%float.
Proof. reflexivity. Qed.

Lemma range_list_scores (n : Z) :
  n <= 3 ->
  Forall in_unit_interval (map relevance_score (range_list n)) /\
  StronglySorted score_gt (map relevance_score (range_list n)).
Proof.
  intros Hn. unfold range_list.
  assert (Hcases : Z.to_nat n = 0%nat \/ Z.to_nat n = 1%nat
                   \/ Z.to_nat n = 2%nat \/ Z.to_nat n = 3%nat) by lia.
  destruct Hcases as [-> | [-> | [-> | ->]]];
    (split;
     [ repeat constructor
     | repeat (constructor; [| repeat (constructor; try reflexivity)]); constructor ]).
Qed.

(** C4, as stated, fails on a negative [max_results]: the call
    [_search_jurisprudence("x", False, -1)] returns an empty result list,
    and 0 results are more than [min(-1, 3) = -1]. *)
Lemma search_count_negative_counterexample :
  exists r items,
    _search_jurisprudence (PyStr "x") (PyBool false) (PyInt (-1)) = Ok r /\
    py_get r "results" = Some (PyList items) /\
    ~ (Z.of_nat (length items) <= Z.min (-1) 3).
Proof.
  eexists; exists []. split; [reflexivity |]. split; [reflexivity |].
  simpl. lia.
Qed.

(** C4 (amended): for every query and every integer [max_results],
    [_search_jurisprudence] returns exactly [max(0, min(max_results, 3))]
    results (hence at most [min(max_results, 3)] as soon as [max_results]
    is not negative, and none when it is); the relevance scores of the
    returned results lie in [0,1] and strictly decrease by rank. *)
Theorem search_count_and_scores (query agent_focus : pyval) (max_results : Z) :
  exists r items scores,
    _search_jurisprudence query agent_focus (PyInt max_results) = Ok r /\
    py_get r "results" = Some (PyList items) /\
    Z.of_nat (length items) = Z.max 0 (Z.min max_results 3) /\
    map score_of items = map (fun f => Some (PyFloat f)) scores /\
    Forall in_unit_interval scores /\
    StronglySorted score_gt scores.
Proof.
  eexists. eexists.
  exists (map relevance_score (range_list (Z.min max_results 3))).
  split; [apply _search_jurisprudence_int |].
  split; [reflexivity |].
  split; [rewrite length_map; apply length_range_list |].
  split; [now rewrite !map_map |].
  apply range_list_scores. lia.
Qed.

(** C8: every result [_search_jurisprudence] returns carries, as
    [abgr_related], the [agent_focus] value of the call, whatever the
    query, the [agent_focus] value and the [max_results] value. *)
Theorem search_abgr_related_is_agent_focus
    (query agent_focus max_results r : pyval) :
  _search_jurisprudence query agent_focus max_results = Ok r ->
  exists items,
    py_get r "results" = Some (PyList items) /\
    Forall (fun item => py_get item "abgr_related" = Some agent_focus) items.
Proof.
  intros H. apply _search_jurisprudence_shape in H as (idx & total & ->).
  eexists. split; [reflexivity |].
  apply Forall_map, Forall_forall. intros i _. apply search_result_abgr_related.
Qed.

Lemma search_abgr_related_is_agent_focus_witness :
  exists r,
    test_search_results = Ok r /\
    exists items,
      py_get r "results" = Some (PyList items) /\
      Forall (fun item => py_get item "abgr_related" = Some (PyBool true)) items.
Proof.
  eexists. split; [reflexivity |].
  apply (search_abgr_related_is_agent_focus
           (PyStr "agent regulations") (PyBool true) (PyInt 2)).
  reflexivity.
Defined.

(** C10: with a non-negative integer [max_results], the [total_found]
    field of the mapping [_search_jurisprudence] returns is the number of
    entries of its [results], and both are [min(max_results, 3)]. *)
Theorem search_total_found_is_result_count
    (query agent_focus : pyval) (max_results : Z) :
  0 <= max_results ->
  exists r items,
    _search_jurisprudence query agent_focus (PyInt max_results) = Ok r /\
    py_get r "results" = Some (PyList items) /\
    py_get r "total_found" = Some (PyInt (Z.of_nat (length items))) /\
    Z.of_nat (length items) = Z.min max_results 3.
Proof.
  intros Hpos. eexists. eexists.
  split; [apply _search_jurisprudence_int |].
  split; [reflexivity |].
  assert (Hlen : Z.of_nat (length (map (search_result query agent_focus)
                                       (range_list (Z.min max_results 3))))
                 = Z.min max_results 3).
  { rewrite length_map, length_range_list. lia. }
  split; [| exact Hlen].
  simpl. now rewrite Hlen.
Qed.

Lemma search_total_found_is_result_count_witness :
  0 <= 2 /\
  exists r items,
    _search_jurisprudence (PyStr "agent regulations") (PyBool true) (PyInt 2) = Ok r /\
    py_get r "results" = Some (PyList items) /\
    py_get r "total_found" = Some (PyInt (Z.of_nat (length items))) /\
    Z.of_nat (length items) = Z.min 2 3.
Proof.
  split; [lia |].
  apply (search_total_found_is_result_count
           (PyStr "agent regulations") (PyBool true) 2).
  lia.
Defined.

(** ** The citation stub *)

Lemma text_analyzed_str (text : string) :
  text_analyzed (PyStr text)
  = Ok (PyStr (if (100 <? String.length text)%nat
               then substring 0 100 text +:+ "..." else text)).
Proof.
  unfold text_analyzed; simpl.
  destruct (Z.ltb_spec 100 (Z.of_nat (String.length text)));
    destruct (Nat.ltb_spec 100 (String.length text)); try lia; reflexivity.
Qed.

Lemma get_insert (arguments : gmap string pyval) (key : string) (v d : pyval) :
  get (<[key := v]> arguments) key d = v.
Proof. unfold get. now rewrite lookup_insert_eq. Qed.

(** C5: [_extract_citations] echoes, as [text_analyzed], the first 100
    characters of the text followed by ["..."] when the text is longer than
    100 characters and the text unchanged otherwise; and [call_tool] hands
    the whole text of the request to the extraction collaborator, whichever
    implementation that is. *)
Theorem citations_preview_and_full_text (text : string) :
  (exists r,
     _extract_citations (PyStr text) = Ok r /\
     py_get r "text_analyzed"
     = Some (PyStr (if (100 <? String.length text)%nat
                    then substring 0 100 text +:+ "..." else text))) /\
  (forall (self : Collaborators) (arguments : gmap string pyval),
     call_tool_body self "extract_citations" (<["text" := PyStr text]> arguments)
     = (result ← extract_citations self (PyStr text);
        Ok (mkCallToolResult [mkTextContent "text" (py_str result)]))).
Proof.
  split.
  - unfold _extract_citations. rewrite text_analyzed_str.
    eexists. split; reflexivity.
  - intros self arguments. unfold call_tool_body; simpl.
    now rewrite get_insert.
Qed.

Example test_citation_results_preview :
  exists r, test_citation_results = Ok r /\
            py_get r "text_analyzed"
            = Some (PyStr "According to the Public Service Act, section 45...").
Proof. eexists. split; reflexivity. Qed.

(** ** Unknown resources and tools *)

Lemma known_uris_eq :
  known_uris = [ "knowledge://jurisprudence/all";
                 "knowledge://jurisprudence/abgr";
                 "knowledge://jurisprudence/search" ].
Proof. reflexivity. Qed.

Lemma known_tools_eq :
  known_tools = [ "search_jurisprudence"; "extract_citations"; "get_abgr_summary" ].
Proof. reflexivity. Qed.

Lemma contains_suffix (prefix s : string) : contains (prefix +:+ s) s.
Proof.
  exists prefix, EmptyString. f_equal.
  induction s as [| c s IH]; [reflexivity |].
  change (String c s = String c (s +:+ EmptyString)). now f_equal.
Qed.

Lemma read_resource_content_unknown (self : Collaborators) (u : string) :
  u ∉ known_uris ->
  read_resource_content self u = Ok ("Unknown resource: " +:+ u).
Proof.
  rewrite known_uris_eq. intros Hu.
  apply not_elem_of_cons in Hu as [H1 Hu].
  apply not_elem_of_cons in Hu as [H2 Hu].
  apply not_elem_of_cons in Hu as [H3 _].
  apply String.eqb_neq in H1, H2, H3.
  unfold read_resource_content. now rewrite H1, H2, H3.
Qed.

(** C6 does not hold of the code.  For a URI that is none of the three
    listed ones the [try] block of [read_resource] does compute the text
    ["Unknown resource: "] followed by the URI, but it puts it in a
    [TextContent], which [ReadResourceResult] refuses: the [try] block
    raises a [ValidationError], the [except] block builds its error
    envelope the same way and raises another one, and this one leaves the
    handler.  Called with a request of the protocol, the handler fails
    before, on [request.uri]. *)
Theorem unknown_uri_raises
    (validation_report : list TextContent -> string)
    (self : Collaborators) (u : string) :
  u ∉ known_uris ->
  read_resource_content self u = Ok ("Unknown resource: " +:+ u) /\
  read_resource_body validation_report self u
  = Raise (validation_error
             (validation_report [mkTextContent "text" ("Unknown resource: " +:+ u)])) /\
  read_resource validation_report self (ObjectWithUri u)
  = Raise (validation_error
             (validation_report
                [mkTextContent "text"
                   ("Error: " +:+ validation_report
                                    [mkTextContent "text" ("Unknown resource: " +:+ u)])])) /\
  read_resource validation_report self (ReadResourceRequest u)
  = Raise (attribute_error "'ReadResourceRequest' object has no attribute 'uri'").
Proof.
  intros Hu.
  assert (Hcontent := read_resource_content_unknown self u Hu).
  assert (Hbody : read_resource_body validation_report self u
                  = Raise (validation_error
                             (validation_report
                                [mkTextContent "text" ("Unknown resource: " +:+ u)]))).
  { unfold read_resource_body. now rewrite Hcontent. }
  split; [exact Hcontent |]. split; [exact Hbody |].
  split; [| reflexivity].
  unfold read_resource. simpl. now rewrite Hbody.
Qed.

Lemma unknown_uri_raises_witness :
  ("foo://bar" ∉ known_uris) /\
  read_resource sample_report (self no_knowledge_base) (ObjectWithUri "foo://bar")
  = Raise (validation_error "1 validation error for ReadResourceResult").
Proof.
  assert (H : "foo://bar" ∉ known_uris)
    by (refine (bool_decide_unpack _ _); vm_compute; exact I).
  split; [exact H |].
  exact (proj1 (proj2 (proj2
           (unknown_uri_raises sample_report (self no_knowledge_base) "foo://bar" H)))).
Defined.

(** C7: a tool name that is none of the three listed ones is answered on
    the success path of [call_tool], with one text block that says
    ["Unknown tool: "] followed by the name itself. *)
Theorem unknown_tool_is_named
    (self : Collaborators) (tool_name : string)
    (arguments : option (gmap string pyval)) :
  tool_name ∉ known_tools ->
  exists envelope body,
    call_tool_body self tool_name (default ∅ arguments) = Ok envelope /\
    call_tool self (tool_request tool_name arguments) = Ok envelope /\
    content envelope = [mkTextContent "text" body] /\
    body = "Unknown tool: " +:+ tool_name /\
    contains body tool_name.
Proof.
  rewrite known_tools_eq. intros Ht.
  apply not_elem_of_cons in Ht as [H1 Ht].
  apply not_elem_of_cons in Ht as [H2 Ht].
  apply not_elem_of_cons in Ht as [H3 _].
  apply String.eqb_neq in H1, H2, H3.
  assert (Hbody : call_tool_body self tool_name (default ∅ arguments)
                  = Ok (mkCallToolResult
                          [mkTextContent "text" ("Unknown tool: " +:+ tool_name)])).
  { unfold call_tool_body. now rewrite H1, H2, H3. }
  eexists. eexists. split; [exact Hbody |].
  split; [unfold call_tool, tool_request; simpl; now rewrite Hbody |].
  split; [reflexivity |]. split; [reflexivity |].
  apply contains_suffix.
Qed.

Lemma unknown_tool_is_named_witness :
  ("summarize" ∉ known_tools) /\
  exists envelope body,
    call_tool_body (self no_knowledge_base) "summarize" (default ∅ None) = Ok envelope /\
    call_tool (self no_knowledge_base) (tool_request "summarize" None) = Ok envelope /\
    content envelope = [mkTextContent "text" body] /\
    body = "Unknown tool: summarize" /\
    contains body "summarize".
Proof.
  assert (H : "summarize" ∉ known_tools) by (refine (bool_decide_unpack _ _); vm_compute; exact I).
  split; [exact H |].
  exact (unknown_tool_is_named (self no_knowledge_base) "summarize" None H).
Defined.

(** ** Exceptions in the two handlers *)

Lemma call_tool_cases (self : Collaborators) (request : CallToolRequest) :
  call_tool self request
  = match call_tool_body self (name (params request))
                         (default ∅ (arguments (params request))) with
    | Ok envelope => Ok envelope
    | Raise e => Ok (mkCallToolResult
                       [mkTextContent "text" ("Tool error: " +:+ exc_str e)])
    end.
Proof. reflexivity. Qed.


(** Neither block of [read_resource] gets its envelope built. *)
Lemma read_resource_body_raises
    (validation_report : list TextContent -> string)
    (self : Collaborators) (u : string) :
  exists e, read_resource_body validation_report self u = Raise e.
Proof.
  unfold read_resource_body.
  destruct (read_resource_content self u) as [content | e]; simpl; eauto.
Qed.

Lemma read_resource_except_raises
    (validation_report : list TextContent -> string) (e : pyexc) :
  read_resource_except validation_report e
  = Raise (validation_error
             (validation_report [mkTextContent "text" ("Error: " +:+ exc_str e)])).
Proof. reflexivity. Qed.

(** C1 holds of [call_tool] and not of [read_resource].  Whatever the
    methods of the server do, [call_tool] returns, and an exception [e] of
    its [try] block becomes the one text block ["Tool error: "] followed by
    [str(e)].  [read_resource] is written the same way, but raises on every
    request: an [AttributeError] on [request.uri] for a request of the
    protocol, and otherwise the [ValidationError] of
    [ReadResourceResult(contents=[TextContent(...)])], raised in the [try]
    block, caught, and raised again by the same construction in the
    [except] block. *)
Theorem read_resource_propagates_exceptions
    (validation_report : list TextContent -> string) (self : Collaborators) :
  (forall request,
     exists e,
       read_resource validation_report self request = Raise e /\
       (exc_class e = OtherException "AttributeError" \/
        exc_class e = OtherException "ValidationError")) /\
  (forall request, raised (call_tool self request) = false) /\
  (forall request e,
     call_tool_body self (name (params request))
                    (default ∅ (arguments (params request))) = Raise e ->
     call_tool self request
     = Ok (mkCallToolResult [mkTextContent "text" ("Tool error: " +:+ exc_str e)])).
Proof.
  repeat split.
  - intros [params_uri | u]; [eexists; split; [reflexivity | now left] |].
    unfold read_resource. simpl.
    destruct (read_resource_body_raises validation_report self u) as [e ->].
    simpl. rewrite read_resource_except_raises.
    eexists. split; [reflexivity | now right].
  - intros request. rewrite call_tool_cases.
    now destruct (call_tool_body self _ _).
  - intros request e H. now rewrite call_tool_cases, H.
Qed.

(** A [max_results] that is a string makes [min] raise a [TypeError]
    inside [_search_jurisprudence]; the client receives it as text. *)
Lemma read_resource_propagates_exceptions_witness :
  call_tool (self no_knowledge_base)
    (tool_request "search_jurisprudence" (Some {[ "max_results" := PyStr "7" ]}))
  = Ok (mkCallToolResult
          [mkTextContent "text"
             "Tool error: '<' not supported between instances of 'int' and 'str'"]).
Proof.
  apply (proj2 (proj2
           (read_resource_propagates_exceptions sample_report (self no_knowledge_base)))
           (tool_request "search_jurisprudence" (Some {[ "max_results" := PyStr "7" ]}))
           (type_error "'<' not supported between instances of 'int' and 'str'")).
  vm_compute. reflexivity.
Defined.


(** ** Required arguments *)

(** C2 does not hold of the code: the input schemas [list_tools]
    publishes name [query] and [text] as required, yet [call_tool] reads
    both with [arguments.get(..., "")], so that a request without them is
    served, on the success path, exactly as a request that carries the
    empty string. *)
Theorem missing_required_argument_is_defaulted (fs : filesystem) :
  required_arguments "search_jurisprudence" = ["query"] /\
  required_arguments "extract_citations" = ["text"] /\
  call_tool_body (self fs) "search_jurisprudence" ∅
  = call_tool_body (self fs) "search_jurisprudence" {[ "query" := PyStr "" ]} /\
  call_tool_body (self fs) "extract_citations" ∅
  = call_tool_body (self fs) "extract_citations" {[ "text" := PyStr "" ]} /\
  call_tool (self fs) (tool_request "search_jurisprudence" None)
  = Ok (mkCallToolResult
          [mkTextContent "text"
             ("{'query': '', 'agent_focus': False, 'results': ["
              +:+ "{'title': 'Legal Document 1', 'content': 'Content related to: ', "
              +:+ "'relevance_score': 0.9, 'source': 'AssistMe Knowledge Base', "
              +:+ "'abgr_related': False}, "
              +:+ "{'title': 'Legal Document 2', 'content': 'Content related to: ', "
              +:+ "'relevance_score': 0.8, 'source': 'AssistMe Knowledge Base', "
              +:+ "'abgr_related': False}, "
              +:+ "{'title': 'Legal Document 3', 'content': 'Content related to: ', "
              +:+ "'relevance_score': 0.7, 'source': 'AssistMe Knowledge Base', "
              +:+ "'abgr_related': False}], 'total_found': 3}")]) /\
  call_tool (self fs) (tool_request "extract_citations" None)
  = Ok (mkCallToolResult
          [mkTextContent "text"
             ("{'text_analyzed': '', 'citations_found': ["
              +:+ "{'type': 'statute', 'reference': 'Example Act, s. 123'}, "
              +:+ "{'type': 'regulation', 'reference': 'Example Regulation 456/2024'}], "
              +:+ "'extraction_confidence': 0.85}")]).
Proof.
  split; [reflexivity |]. split; [reflexivity |].
  split; [reflexivity |]. split; [reflexivity |].
  split; vm_compute; reflexivity.
Qed.

(** ** The ingestion trigger *)

Import Ingest.

(** C3, as stated, fails on the [success] field: the value returned on a
    timeout has the keys [error] and [message] only. *)
Lemma timeout_result_counterexample :
  exists r,
    trigger_ingestion default_config post_times_out
      "knowledge_articles_r2r3_en.xml" "government-canada" false None None = Ok r /\
    py_get r "error" = Some (PyStr "timeout") /\
    py_get r "success" <> Some (PyBool false).
Proof.
  eexists. split; [reflexivity |]. split; [reflexivity |]. discriminate.
Qed.

(** C3 (amended): when the HTTP POST to the ingestion function times
    out, [trigger_ingestion] returns, and does not raise, a mapping with
    [error = "timeout"] and a [message]; the mapping has no [success] key,
    so that [result.get('success')] is [None] and [main] exits with 1. *)
Theorem timeout_is_returned_not_raised
    (cfg : config) (post : string -> pyval -> pyval -> Z -> result response)
    (blob_name tenant_id : string) (abgr_only : bool)
    (function_url function_key : option string) (e : pyexc) :
  post (build_function_url cfg function_url)
       (payload cfg blob_name tenant_id abgr_only)
       (headers (build_function_key cfg function_key)) 300 = Raise e ->
  issubclass_Timeout (exc_class e) = true ->
  exists r,
    trigger_ingestion cfg post blob_name tenant_id abgr_only function_url function_key
    = Ok r /\
    py_get r "error" = Some (PyStr "timeout") /\
    py_get r "message"
    = Some (PyStr "Check Azure portal for function execution logs") /\
    py_get r "success" = None /\
    exit_code r = 1.
Proof.
  intros Hpost Htimeout. exists timeout_result.
  split; [| repeat split].
  unfold trigger_ingestion, request_body. rewrite Hpost. simpl.
  now rewrite Htimeout.
Qed.

Lemma timeout_is_returned_not_raised_witness :
  exists r,
    trigger_ingestion default_config post_times_out
      "knowledge_articles_r2r3_en.xml" "government-canada" true None None = Ok r /\
    py_get r "error" = Some (PyStr "timeout") /\
    py_get r "message"
    = Some (PyStr "Check Azure portal for function execution logs") /\
    py_get r "success" = None /\
    exit_code r = 1.
Proof.
  apply (timeout_is_returned_not_raised default_config post_times_out
           "knowledge_articles_r2r3_en.xml" "government-canada" true None None
           (mkExc ReadTimeout "Read timed out. (read timeout=300)")).
  - reflexivity.
  - reflexivity.
Defined.

(** * Further properties of the server *)

(** ** The search stub on any [max_results] *)

Lemma _search_jurisprudence_bool (query agent_focus : pyval) (b : bool) :
  _search_jurisprudence query agent_focus (PyBool b)
  = Ok (PyDict
          [ ("query", query);
            ("agent_focus", agent_focus);
            ("results",
             PyList (map (search_result query agent_focus) (range_list (Z.b2z b))));
            ("total_found", PyBool b) ]).
Proof. destruct b; reflexivity. Qed.

Lemma _search_jurisprudence_float (query agent_focus : pyval) (f : float) :
  _search_jurisprudence query agent_focus (PyFloat f)
  = if PrimFloat.ltb 3 f then
      Ok (PyDict
            [ ("query", query);
              ("agent_focus", agent_focus);
              ("results",
               PyList (map (search_result query agent_focus) (range_list 3)));
              ("total_found", PyInt 3) ])
    else Raise (type_error "'float' object cannot be interpreted as an integer").
Proof.
  unfold _search_jurisprudence, py_min_int, int_lt.
  change (float_of_int 3) with 3%float.
  destruct (PrimFloat.ltb 3 f); reflexivity.
Qed.


(** X2: whatever the value of [max_results], a call of
    [_search_jurisprudence] that returns gives at most three results. *)
Theorem search_never_more_than_three
    (query agent_focus max_results r : pyval) :
  _search_jurisprudence query agent_focus max_results = Ok r ->
  exists items,
    py_get r "results" = Some (PyList items) /\ (length items <= 3)%nat.
Proof.
  destruct max_results as [| b | z | f | s | l | d]; try discriminate.
  - rewrite _search_jurisprudence_bool. intros [= <-].
    eexists. split; [reflexivity |]. destruct b; simpl; lia.
  - rewrite _search_jurisprudence_int. intros [= <-].
    eexists. split; [reflexivity |].
    rewrite length_map. pose proof (length_range_list (Z.min z 3)). lia.
  - rewrite _search_jurisprudence_float.
    destruct (PrimFloat.ltb 3 f); [| discriminate]. intros [= <-].
    eexists. split; [reflexivity |]. simpl. lia.
Qed.

Lemma search_never_more_than_three_witness :
  exists r,
    _search_jurisprudence (PyStr "agent") (PyBool false) (PyFloat 10) = Ok r /\
    exists items,
      py_get r "results" = Some (PyList items) /\ (length items <= 3)%nat.
Proof.
  eexists. split; [reflexivity |].
  apply (search_never_more_than_three (PyStr "agent") (PyBool false) (PyFloat 10)).
  reflexivity.
Defined.

(** ** The citation stub on any [text] *)

Lemma length_append (a b : string) :
  String.length (a +:+ b) = (String.length a + String.length b)%nat.
Proof.
  induction a as [| c a IH]; [reflexivity |].
  change (S (String.length (a +:+ b)) = S (String.length a + String.length b)).
  now rewrite IH.
Qed.

Lemma length_substring_0 (n : nat) (s : string) :
  (n <= String.length s)%nat -> String.length (substring 0 n s) = n.
Proof.
  revert s. induction n as [| n IH]; intros [| c s] H; simpl in *;
    try lia; try reflexivity.
  rewrite IH; lia.
Qed.

Lemma substring_0_append (n : nat) (a b : string) :
  String.length a = n -> substring 0 n (a +:+ b) = a.
Proof.
  revert a. induction n as [| n IH]; intros [| c a] H; simpl in *; try lia.
  - now destruct b.
  - change (String c (substring 0 n (a +:+ b)) = String c a).
    rewrite IH; [reflexivity | lia].
Qed.

(** X3: for a text that is a string, the [text_analyzed] preview of
    [_extract_citations] is never longer than 103 characters: it has the
    length of the text up to 100 characters and 103 beyond (so that for a
    text of 101 or 102 characters the preview is longer than the text), and
    it agrees with the text on the first 100 characters. *)
Theorem citations_preview_length (text : string) :
  exists r preview,
    _extract_citations (PyStr text) = Ok r /\
    py_get r "text_analyzed" = Some (PyStr preview) /\
    String.length preview
    = (if (100 <? String.length text)%nat then 103 else String.length text)%nat /\
    (String.length preview <= 103)%nat /\
    substring 0 100 preview = substring 0 100 text.
Proof.
  unfold _extract_citations. rewrite text_analyzed_str.
  eexists. eexists. split; [reflexivity |]. split; [reflexivity |].
  destruct (Nat.ltb_spec 100 (String.length text)) as [Hlong | Hshort].
  - assert (Hhead : String.length (substring 0 100 text) = 100%nat)
      by (apply length_substring_0; lia).
    rewrite length_append, Hhead. repeat split; try (simpl; lia).
    now apply substring_0_append.
  - repeat split; lia.
Qed.

(** X4: [_extract_citations] returns exactly on a string, or on a list or
    a mapping of at most 100 entries, which it echoes unchanged as
    [text_analyzed]; a longer list or mapping fails in the slice or in the
    concatenation, and any other value has no [len()]. *)
Theorem citations_accepts (text : pyval) :
  match text with
  | PyStr _ => exists r, _extract_citations text = Ok r
  | PyList l =>
      if 100 <? Z.of_nat (length l) then
        _extract_citations text
        = Raise (type_error ("can only concatenate list (not " +:+ q "str"
                             +:+ ") to list"))
      else exists r, _extract_citations text = Ok r /\
                     py_get r "text_analyzed" = Some text
  | PyDict d =>
      if 100 <? Z.of_nat (length d) then
        _extract_citations text = Raise (type_error "unhashable type: 'slice'")
      else exists r, _extract_citations text = Ok r /\
                     py_get r "text_analyzed" = Some text
  | _ =>
      _extract_citations text
      = Raise (type_error ("object of type '" +:+ type_name text +:+ "' has no len()"))
  end.
Proof.
  destruct text as [| b | z | f | s | l | d]; try reflexivity.
  - unfold _extract_citations. rewrite text_analyzed_str. eauto.
  - unfold _extract_citations, text_analyzed; simpl.
    destruct (100 <? Z.of_nat (length l)); simpl; eauto.
  - unfold _extract_citations, text_analyzed; simpl.
    destruct (100 <? Z.of_nat (length d)); simpl; eauto.
Qed.

(** ** What the listings advertise and what the handlers dispatch *)

Lemma call_tool_body_unknown
    (self : Collaborators) (tool_name : string) (arguments : gmap string pyval) :
  tool_name ∉ known_tools ->
  call_tool_body self tool_name arguments
  = Ok (mkCallToolResult [mkTextContent "text" ("Unknown tool: " +:+ tool_name)]).
Proof.
  rewrite known_tools_eq. intros Ht.
  apply not_elem_of_cons in Ht as [H1 Ht].
  apply not_elem_of_cons in Ht as [H2 Ht].
  apply not_elem_of_cons in Ht as [H3 _].
  apply String.eqb_neq in H1, H2, H3.
  unfold call_tool_body. now rewrite H1, H2, H3.
Qed.

(** X5: the tool names [list_tools] advertises are pairwise distinct, and
    they are exactly the names [call_tool] dispatches to a method of the
    server: for these and only these some server gets another reply than
    the unknown-tool text. *)
Theorem tools_listed_iff_dispatched (tool_name : string) :
  NoDup known_tools /\
  (tool_name ∈ known_tools <->
   exists self arguments,
     call_tool_body self tool_name arguments
     <> Ok (mkCallToolResult
              [mkTextContent "text" ("Unknown tool: " +:+ tool_name)])).
Proof.
  split.
  - refine (bool_decide_unpack _ _). vm_compute. exact I.
  - split.
    + rewrite known_tools_eq. intros Hin.
      exists (failing_server (type_error "unavailable")), ∅.
      repeat (apply elem_of_cons in Hin as [-> | Hin]; [discriminate |]).
      now apply elem_of_nil in Hin.
    + intros (self & arguments & Hneq).
      destruct (decide (tool_name ∈ known_tools)) as [Hin | Hout]; [exact Hin |].
      exfalso. apply Hneq. now apply call_tool_body_unknown.
Qed.

(** X6: likewise the URIs [list_resources] advertises are pairwise
    distinct and are exactly the URIs for which the [if]/[elif] chain of
    [read_resource] asks a method of the server for the text: for these
    and only these some server gets another text than the
    unknown-resource one. *)
Theorem uris_listed_iff_dispatched (u : string) :
  NoDup known_uris /\
  (u ∈ known_uris <->
   exists self, read_resource_content self u <> Ok ("Unknown resource: " +:+ u)).
Proof.
  split.
  - refine (bool_decide_unpack _ _). vm_compute. exact I.
  - split.
    + rewrite known_uris_eq. intros Hin.
      exists (failing_server (type_error "unavailable")).
      repeat (apply elem_of_cons in Hin as [-> | Hin]; [discriminate |]).
      now apply elem_of_nil in Hin.
    + intros (self & Hneq).
      destruct (decide (u ∈ known_uris)) as [Hin | Hout]; [exact Hin |].
      exfalso. apply Hneq. now apply read_resource_content_unknown.
Qed.

Lemma get_insert_ne (arguments : gmap string pyval) (key key' : string) (v d : pyval) :
  String.eqb key key' = false ->
  get (<[key := v]> arguments) key' d = get arguments key' d.
Proof.
  intros Hne. apply String.eqb_neq in Hne.
  unfold get. now rewrite lookup_insert_ne.
Qed.

Lemma get_insert_absent (arguments : gmap string pyval) (key : string) (d : pyval) :
  arguments !! key = None -> get (<[key := d]> arguments) key d = get arguments key d.
Proof. intros H. rewrite get_insert. unfold get. now rewrite H. Qed.

Lemma schema_properties_unknown (tool_name : string) :
  tool_name ∉ known_tools -> schema_properties tool_name = [].
Proof.
  rewrite known_tools_eq. intros Ht.
  apply not_elem_of_cons in Ht as [H1 Ht].
  apply not_elem_of_cons in Ht as [H2 Ht].
  apply not_elem_of_cons in Ht as [H3 _].
  unfold schema_properties, tool_schema.
  cbn [tools list_tools filter list_filter Tool.name].
  rewrite !decide_False by congruence. reflexivity.
Qed.

(** The three defaults the schemas document. *)
Lemma schema_default_cases (tool_name property : string) (d : pyval) :
  schema_default tool_name property = Some d ->
  (tool_name = "search_jurisprudence" /\ property = "agent_focus" /\ d = PyBool false) \/
  (tool_name = "search_jurisprudence" /\ property = "max_results" /\ d = PyInt 5) \/
  (tool_name = "get_abgr_summary" /\ property = "topic" /\ d = PyStr "all").
Proof.
  destruct (decide (tool_name ∈ known_tools)) as [Hin | Hout].
  - rewrite known_tools_eq in Hin. unfold schema_default.
    repeat (apply elem_of_cons in Hin as [-> | Hin]);
      [ | | | now apply elem_of_nil in Hin ];
      match goal with
      | |- context [schema_properties ?t] =>
          let ps := eval vm_compute in (schema_properties t) in
          change (schema_properties t) with ps
      end;
      cbn [assoc];
      repeat match goal with
        | |- context [String.eqb ?a property] =>
            destruct (String.eqb_spec a property) as [<- | _]
        end;
      cbn; intros [= <-]; auto.
  - unfold schema_default. rewrite schema_properties_unknown by assumption.
    discriminate.
Qed.

(** X7: the defaults [call_tool] applies are the ones the schemas
    document: when the input schema of a tool gives a property a
    [default], a request that leaves the property out is handled exactly as
    the request that passes this default. *)
Theorem documented_defaults_are_applied
    (self : Collaborators) (tool_name property : string) (d : pyval)
    (arguments : gmap string pyval) :
  schema_default tool_name property = Some d ->
  arguments !! property = None ->
  call_tool_body self tool_name arguments
  = call_tool_body self tool_name (<[property := d]> arguments).
Proof.
  intros Hd Habsent.
  apply schema_default_cases in Hd as [(-> & -> & ->) | [(-> & -> & ->) | (-> & -> & ->)]];
    unfold call_tool_body; cbn [String.eqb Ascii.eqb Bool.eqb];
    rewrite get_insert_absent by assumption;
    rewrite ?get_insert_ne by reflexivity; reflexivity.
Qed.

Lemma documented_defaults_are_applied_witness :
  schema_default "search_jurisprudence" "max_results" = Some (PyInt 5) /\
  call_tool_body (self no_knowledge_base) "search_jurisprudence"
                 {[ "query" := PyStr "agent" ]}
  = call_tool_body (self no_knowledge_base) "search_jurisprudence"
                   (<["max_results" := PyInt 5]> {[ "query" := PyStr "agent" ]}).
Proof.
  split; [reflexivity |].
  apply (documented_defaults_are_applied (self no_knowledge_base)
           "search_jurisprudence" "max_results" (PyInt 5)).
  - reflexivity.
  - reflexivity.
Defined.

Lemma schema_property_names (tool_name : string) :
  (schema_properties tool_name).*1
  = if String.eqb tool_name "search_jurisprudence" then
      ["query"; "agent_focus"; "max_results"]
    else if String.eqb tool_name "extract_citations" then ["text"]
    else if String.eqb tool_name "get_abgr_summary" then ["topic"]
    else [].
Proof.
  destruct (decide (tool_name ∈ known_tools)) as [Hin | Hout].
  - rewrite known_tools_eq in Hin.
    repeat (apply elem_of_cons in Hin as [-> | Hin]); try reflexivity.
    now apply elem_of_nil in Hin.
  - rewrite schema_properties_unknown by assumption.
    rewrite known_tools_eq in Hout.
    apply not_elem_of_cons in Hout as [H1 Hout].
    apply not_elem_of_cons in Hout as [H2 Hout].
    apply not_elem_of_cons in Hout as [H3 _].
    apply String.eqb_neq in H1, H2, H3. now rewrite H1, H2, H3.
Qed.

(** X8: an argument the input schema of the tool does not describe is
    ignored: adding it to a request, or changing its value, changes nothing
    to what [call_tool] does. *)
Theorem undeclared_arguments_are_ignored
    (self : Collaborators) (tool_name key : string) (v : pyval)
    (arguments : gmap string pyval) :
  key ∉ (schema_properties tool_name).*1 ->
  call_tool_body self tool_name (<[key := v]> arguments)
  = call_tool_body self tool_name arguments.
Proof.
  rewrite schema_property_names. unfold call_tool_body.
  destruct (String.eqb tool_name "search_jurisprudence");
    [| destruct (String.eqb tool_name "extract_citations");
       [| destruct (String.eqb tool_name "get_abgr_summary")]];
    intros Hkey;
    repeat (apply not_elem_of_cons in Hkey as [?%String.eqb_neq Hkey]);
    rewrite ?get_insert_ne by assumption; reflexivity.
Qed.

Lemma undeclared_arguments_are_ignored_witness :
  ("limit" ∉ (schema_properties "search_jurisprudence").*1) /\
  call_tool_body (self no_knowledge_base) "search_jurisprudence"
                 (<["limit" := PyInt 1]> {[ "query" := PyStr "agent" ]})
  = call_tool_body (self no_knowledge_base) "search_jurisprudence"
                   {[ "query" := PyStr "agent" ]}.
Proof.
  assert (H : "limit" ∉ (schema_properties "search_jurisprudence").*1)
    by (refine (bool_decide_unpack _ _); vm_compute; exact I).
  split; [exact H |].
  exact (undeclared_arguments_are_ignored (self no_knowledge_base)
           "search_jurisprudence" "limit" (PyInt 1) {[ "query" := PyStr "agent" ]} H).
Defined.

(** ** The knowledge base loader *)

Example loader_on_a_locked_file_system :
  _read_full_knowledge_base locked_file_system
  = Ok ("Error reading knowledge base: [Errno 13] Permission denied: "
        +:+ "'../eva-da-2/public/knowledge_articles_r2r3_en 2.xml'").
Proof. reflexivity. Qed.

(** X10: [_read_full_knowledge_base] never raises, whatever the file
    system does: it returns ["Knowledge base loaded: N characters"] with
    the length of the text read, ["Knowledge base not found at: "] followed
    by the path when the path does not exist, and, when the existence
    check or the read raises [e], ["Error reading knowledge base: "]
    followed by [str(e)]. *)
Theorem knowledge_base_loader_never_raises (fs : filesystem) :
  match path_exists fs knowledge_base_path with
  | Ok true =>
      match read_text fs knowledge_base_path with
      | Ok content =>
          _read_full_knowledge_base fs
          = Ok ("Knowledge base loaded: "
                +:+ pretty (Z.of_nat (String.length content)) +:+ " characters")
      | Raise e =>
          _read_full_knowledge_base fs
          = Ok ("Error reading knowledge base: " +:+ exc_str e)
      end
  | Ok false =>
      _read_full_knowledge_base fs
      = Ok ("Knowledge base not found at: "
            +:+ "../eva-da-2/public/knowledge_articles_r2r3_en 2.xml")
  | Raise e =>
      _read_full_knowledge_base fs
      = Ok ("Error reading knowledge base: " +:+ exc_str e)
  end.
Proof.
  unfold _read_full_knowledge_base.
  destruct (path_exists fs knowledge_base_path) as [[] | e]; simpl; try reflexivity.
  destruct (read_text fs knowledge_base_path) as [content | e]; reflexivity.
Qed.

(** X24: for a negative integer [max_results] the search stub returns
    no result and reports this negative number as [total_found]. *)
Theorem search_negative_max_results (query agent_focus : pyval) (max_results : Z) :
  max_results < 0 ->
  exists r,
    _search_jurisprudence query agent_focus (PyInt max_results) = Ok r /\
    py_get r "results" = Some (PyList []) /\
    py_get r "total_found" = Some (PyInt max_results).
Proof.
  intros Hneg. rewrite _search_jurisprudence_int.
  eexists. split; [reflexivity |].
  rewrite Z.min_l by lia. unfold range_list.
  replace (Z.to_nat max_results) with 0%nat by lia.
  split; reflexivity.
Qed.

Lemma search_negative_max_results_witness :
  exists r,
    _search_jurisprudence (PyStr "agent") (PyBool false) (PyInt (-7)) = Ok r /\
    py_get r "results" = Some (PyList []) /\
    py_get r "total_found" = Some (PyInt (-7)).
Proof.
  apply (search_negative_max_results (PyStr "agent") (PyBool false) (-7)). lia.
Defined.

(** * Further properties of the ingestion client *)

(** ** What [trigger_ingestion] returns and what it raises *)

(** X11: [trigger_ingestion] never makes up a result: what it returns is
    either the JSON body of a response whose status check passed, exactly
    as decoded, or the timeout mapping. *)
Theorem trigger_ingestion_returns_body_or_timeout
    (cfg : config) (post : string -> pyval -> pyval -> Z -> result response)
    (blob tenant : string) (abgr : bool) (url key : option string) (r : pyval) :
  trigger_ingestion cfg post blob tenant abgr url key = Ok r ->
  r = timeout_result \/
  exists reply,
    post (build_function_url cfg url) (payload cfg blob tenant abgr)
         (headers (build_function_key cfg key)) 300 = Ok reply /\
    raise_for_status reply = Ok tt /\
    json reply = Ok r.
Proof.
  unfold trigger_ingestion, request_body.
  destruct (post _ _ _ 300) as [reply | e]; simpl.
  - destruct (raise_for_status reply) as [[] | e] eqn:Hstatus; simpl.
    + destruct (json reply) as [body | e] eqn:Hjson; simpl.
      * intros [= <-]. right. eauto.
      * destruct (issubclass_Timeout (exc_class e));
          [intros [= <-]; now left |].
        destruct (issubclass_RequestException (exc_class e)); discriminate.
    + destruct (issubclass_Timeout (exc_class e));
        [intros [= <-]; now left |].
      destruct (issubclass_RequestException (exc_class e)); discriminate.
  - destruct (issubclass_Timeout (exc_class e));
      [intros [= <-]; now left |].
    destruct (issubclass_RequestException (exc_class e)); discriminate.
Qed.

Lemma trigger_ingestion_returns_body_or_timeout_witness :
  timeout_result = timeout_result \/
  exists reply,
    post_times_out (build_function_url default_config None)
      (payload default_config "kb.xml" "government-canada" false)
      (headers (build_function_key default_config None)) 300 = Ok reply /\
    raise_for_status reply = Ok tt /\
    json reply = Ok timeout_result.
Proof.
  apply (trigger_ingestion_returns_body_or_timeout default_config post_times_out
           "kb.xml" "government-canada" false None None timeout_result).
  reflexivity.
Defined.

(** X12: an answer with an HTTP error status, or one whose body is not
    JSON, makes [trigger_ingestion] raise the exception of the failed step
    unchanged, unless that exception is a [Timeout]. *)
Theorem http_errors_propagate
    (cfg : config) (post : string -> pyval -> pyval -> Z -> result response)
    (blob tenant : string) (abgr : bool) (url key : option string)
    (reply : response) (e : pyexc) :
  post (build_function_url cfg url) (payload cfg blob tenant abgr)
       (headers (build_function_key cfg key)) 300 = Ok reply ->
  raise_for_status reply = Raise e \/
  (raise_for_status reply = Ok tt /\ json reply = Raise e) ->
  issubclass_Timeout (exc_class e) = false ->
  trigger_ingestion cfg post blob tenant abgr url key = Raise e.
Proof.
  intros Hpost Hfail Hclass. unfold trigger_ingestion, request_body.
  rewrite Hpost; simpl.
  destruct Hfail as [-> | [-> ->]]; simpl; rewrite Hclass;
    now destruct (issubclass_RequestException (exc_class e)).
Qed.

Lemma http_errors_propagate_witness :
  trigger_ingestion default_config post_unauthorized
    "kb.xml" "government-canada" false None None = Raise unauthorized.
Proof.
  apply (http_errors_propagate default_config post_unauthorized
           "kb.xml" "government-canada" false None None
           {| raise_for_status := Raise unauthorized;
              json := Ok (PyDict [("error", PyStr "invalid key")]) |}
           unauthorized).
  - reflexivity.
  - left. reflexivity.
  - reflexivity.
Defined.

(** ** The upload step *)

Lemma split_on_no_separator (sep : ascii) (s w : string) :
  In w (split_on sep s) -> StrRepr.mem sep w = false.
Proof.
  revert w. induction s as [| c s IH]; intros w Hw; simpl in Hw.
  - destruct Hw as [<- | []]. reflexivity.
  - destruct (Ascii.eqb c sep) eqn:Hc.
    + destruct Hw as [<- | Hw]; [reflexivity | now apply IH].
    + destruct (split_on sep s) as [| w0 ws].
      * destruct Hw as [<- | []]. simpl.
        rewrite Ascii.eqb_sym, Hc. reflexivity.
      * destruct Hw as [<- | Hw].
        -- simpl. rewrite Ascii.eqb_sym, Hc. simpl. apply IH. now left.
        -- apply IH. now right.
Qed.

Lemma last_default_or_In {A} (l : list A) (d : A) :
  List.last l d = d \/ In (List.last l d) l.
Proof.
  induction l as [| x [| y l] IH]; [now left | right; now left |].
  destruct IH as [IH | IH].
  - left. exact IH.
  - right. right. exact IH.
Qed.

Lemma path_name_no_slash (p : string) : StrRepr.mem "/" (path_name p) = false.
Proof.
  unfold path_name.
  destruct (last_default_or_In (path_parts p) EmptyString) as [-> | Hin];
    [reflexivity |].
  apply filter_In in Hin as [Hin _]. now apply split_on_no_separator in Hin.
Qed.

Example path_name_samples :
  map path_name ["a/b.xml"; "a/b/"; ".."; "."; "/"; "//a"; "a/."; "a//b"; ""]
  = ["b.xml"; "b"; ".."; ""; ""; "a"; "a"; "b"; ""].
Proof. reflexivity. Qed.

(** X13: whatever the storage service does, the name
    [upload_to_blob_storage] returns is the blob name it was given or, when
    it was given none, the last component of the path of the file, which
    holds no ['/']. *)
Theorem upload_returns_blob_name
    {S : Type} (cfg : config) (fs : localfs) (svc : BlobService S)
    (path : string) (given : option string) (st st' : S) (returned : string) :
  run (upload_to_blob_storage cfg fs svc path given) st = (Ok returned, st') ->
  match given with
  | Some chosen => returned = chosen
  | None => returned = path_name path /\ StrRepr.mem "/" returned = false
  end.
Proof.
  unfold upload_to_blob_storage.
  destruct (os_path_exists fs path); simpl; [| discriminate].
  intros H.
  assert (Hname : returned = match given with
                             | Some chosen => chosen
                             | None => path_name path
                             end).
  { unfold mbind, io_mbind, io_bind, io_try, io_lift in H. simpl in H.
    repeat io_step H; now injection H as <- _. }
  destruct given as [chosen |]; [exact Hname |].
  split; [exact Hname |]. rewrite Hname. apply path_name_no_slash.
Qed.

Lemma upload_returns_blob_name_witness :
  "knowledge_articles_r2r3_en.xml" = path_name "./data/knowledge_articles_r2r3_en.xml" /\
  StrRepr.mem "/" "knowledge_articles_r2r3_en.xml" = false.
Proof.
  eapply (upload_returns_blob_name default_config sample_disk memory_service
            "./data/knowledge_articles_r2r3_en.xml" None ∅).
  vm_compute. reflexivity.
Defined.

(** The upload step against the store in memory: the container is created
    when it is missing, and the blob is written over whatever was there. *)
Lemma upload_in_memory
    (cfg : config) (fs : localfs) (path : string) (given : option string)
    (st : gmap string (gmap string string)) (size : Z) (data : string) :
  os_path_exists fs path = true ->
  os_path_getsize fs path = Ok size ->
  open_rb fs path = Ok data ->
  let blob := match given with Some chosen => chosen | None => path_name path end in
  run (upload_to_blob_storage cfg fs memory_service path given) st
  = (Ok blob,
     <[CONTAINER_NAME cfg := <[blob := data]> (default ∅ (st !! CONTAINER_NAME cfg))]> st).
Proof.
  intros Hexists Hsize Hopen blob.
  unfold upload_to_blob_storage. rewrite Hexists. simpl.
  unfold mbind, io_mbind, io_bind, io_try, io_lift, ensure_container. simpl.
  rewrite Hsize, Hopen. simpl. fold blob.
  destruct (st !! CONTAINER_NAME cfg) as [blobs |] eqn:Hcontainer; simpl.
  - rewrite Hcontainer. now destruct (blobs !! blob).
  - rewrite Hcontainer. simpl. rewrite lookup_insert_eq, lookup_empty.
    now rewrite insert_insert_eq.
Qed.

(** X14: run against a blob store, the upload of a readable file leaves
    the file's bytes under the blob name in the configured container,
    whether or not the container or the blob existed before; the other
    blobs of the container and the other containers are as they were. *)
Theorem upload_stores_the_file
    (cfg : config) (fs : localfs) (path : string) (given : option string)
    (st : gmap string (gmap string string)) (size : Z) (data : string) :
  os_path_exists fs path = true ->
  os_path_getsize fs path = Ok size ->
  open_rb fs path = Ok data ->
  exists blob st' blobs',
    run (upload_to_blob_storage cfg fs memory_service path given) st = (Ok blob, st') /\
    st' !! CONTAINER_NAME cfg = Some blobs' /\
    blobs' !! blob = Some data /\
    (forall other, other <> blob ->
       blobs' !! other = default ∅ (st !! CONTAINER_NAME cfg) !! other) /\
    (forall container, container <> CONTAINER_NAME cfg ->
       st' !! container = st !! container).
Proof.
  intros Hexists Hsize Hopen.
  eexists. eexists. eexists.
  split; [now apply (upload_in_memory cfg fs path given st size data) |].
  split; [apply lookup_insert_eq |].
  split; [apply lookup_insert_eq |].
  split.
  - intros other Hother. now rewrite lookup_insert_ne.
  - intros container Hcontainer. now rewrite lookup_insert_ne.
Qed.

Lemma upload_stores_the_file_witness :
  exists blob st' blobs',
    run (upload_to_blob_storage default_config sample_disk memory_service
           "./data/knowledge_articles_r2r3_en.xml" None)
        {[ "knowledge-sources" := {[ "knowledge_articles_r2r3_en.xml" := "<old/>" ]} ]}
    = (Ok blob, st') /\
    st' !! CONTAINER_NAME default_config = Some blobs' /\
    blobs' !! blob = Some "<articles/>" /\
    (forall other, other <> blob ->
       blobs' !! other
       = default ∅ (({[ "knowledge-sources" :=
                          {[ "knowledge_articles_r2r3_en.xml" := "<old/>" ]} ]}
                      : gmap string (gmap string string))
                    !! CONTAINER_NAME default_config) !! other) /\
    (forall container, container <> CONTAINER_NAME default_config ->
       st' !! container
       = ({[ "knowledge-sources" :=
               {[ "knowledge_articles_r2r3_en.xml" := "<old/>" ]} ]}
          : gmap string (gmap string string)) !! container).
Proof.
  apply (upload_stores_the_file default_config sample_disk
           "./data/knowledge_articles_r2r3_en.xml" None
           {[ "knowledge-sources" := {[ "knowledge_articles_r2r3_en.xml" := "<old/>" ]} ]}
           11 "<articles/>"); reflexivity.
Defined.

(** X15: uploading is idempotent: run against a blob store, a second
    upload of the same file under the same name returns the same name and
    leaves the store as the first one left it. *)
Theorem upload_twice_is_upload_once
    (cfg : config) (fs : localfs) (path : string) (given : option string)
    (st : gmap string (gmap string string)) (size : Z) (data : string) :
  os_path_exists fs path = true ->
  os_path_getsize fs path = Ok size ->
  open_rb fs path = Ok data ->
  exists blob st',
    run (upload_to_blob_storage cfg fs memory_service path given) st = (Ok blob, st') /\
    run (upload_to_blob_storage cfg fs memory_service path given) st' = (Ok blob, st').
Proof.
  intros Hexists Hsize Hopen.
  eexists. eexists.
  split; [now apply (upload_in_memory cfg fs path given st size data) |].
  rewrite (upload_in_memory cfg fs path given _ size data) by assumption.
  f_equal. rewrite lookup_insert_eq. simpl.
  now rewrite !insert_insert_eq.
Qed.

Lemma upload_twice_is_upload_once_witness :
  exists blob st',
    run (upload_to_blob_storage default_config sample_disk memory_service
           "./data/knowledge_articles_r2r3_en.xml" None) ∅ = (Ok blob, st') /\
    run (upload_to_blob_storage default_config sample_disk memory_service
           "./data/knowledge_articles_r2r3_en.xml" None) st' = (Ok blob, st').
Proof.
  apply (upload_twice_is_upload_once default_config sample_disk
           "./data/knowledge_articles_r2r3_en.xml" None ∅ 11 "<articles/>");
    reflexivity.
Defined.

(** X16: the container check is best effort: when asking whether the
    container exists raises, the upload goes on, and it succeeds as usual
    if the container is there. *)
Theorem upload_survives_a_failed_container_check
    (cfg : config) (fs : localfs) (path : string) (given : option string)
    (st : gmap string (gmap string string)) (blobs : gmap string string)
    (size : Z) (data : string) :
  os_path_exists fs path = true ->
  os_path_getsize fs path = Ok size ->
  open_rb fs path = Ok data ->
  st !! CONTAINER_NAME cfg = Some blobs ->
  run (upload_to_blob_storage cfg fs unlistable_service path given) st
  = run (upload_to_blob_storage cfg fs memory_service path given) st.
Proof.
  intros Hexists Hsize Hopen Hcontainer.
  rewrite (upload_in_memory cfg fs path given st size data) by assumption.
  unfold upload_to_blob_storage. rewrite Hexists. simpl.
  unfold mbind, io_mbind, io_bind, io_try, io_lift, ensure_container. simpl.
  rewrite Hsize, Hopen. simpl. rewrite Hcontainer. simpl.
  now destruct (blobs !! _).
Qed.

Lemma upload_survives_a_failed_container_check_witness :
  run (upload_to_blob_storage default_config sample_disk unlistable_service
         "./data/knowledge_articles_r2r3_en.xml" None)
      {[ "knowledge-sources" := ∅ ]}
  = run (upload_to_blob_storage default_config sample_disk memory_service
           "./data/knowledge_articles_r2r3_en.xml" None)
        {[ "knowledge-sources" := ∅ ]}.
Proof.
  apply (upload_survives_a_failed_container_check default_config sample_disk
           "./data/knowledge_articles_r2r3_en.xml" None
           {[ "knowledge-sources" := ∅ ]} ∅ 11 "<articles/>");
    reflexivity.
Defined.

(** ** The command line *)

Lemma truthy_default_None (o : option pyval) :
  py_truthy (default PyNone o) = true <-> exists v, o = Some v /\ py_truthy v = true.
Proof.
  destruct o as [v |]; simpl; split.
  - eauto.
  - now intros (v' & [= <-] & Hv).
  - discriminate.
  - now intros (v & [=] & _).
Qed.

(** X17: outside the analyze-only mode, [main] ends with status 0 in two
    cases only: the upload returned and [--upload-only] was given; or the
    upload returned, the ingestion call returned a mapping whose [success]
    entry is true in the sense of [if], and the summary was printed without
    an exception. *)
Theorem main_status_zero_iff
    {S : Type} (cfg : config) (fs : localfs) (svc : BlobService S)
    (post : string -> pyval -> pyval -> Z -> result response)
    (analyze : string -> result unit) (summary : pyval -> result unit)
    (args : Args) (st : S) :
  analyze_only args = false ->
  exit_status (main cfg fs svc post analyze summary args st).1 = 0 <->
  exists blob st',
    run (upload_to_blob_storage cfg fs svc (xml_file args) (blob_name args)) st
    = (Ok blob, st') /\
    (upload_only args = true \/
     exists r v,
       trigger_ingestion cfg post blob (tenant_id args) (abgr_only args)
                         (function_url args) (function_key args) = Ok r /\
       summary r = Ok tt /\
       py_get r "success" = Some v /\
       py_truthy v = true).
Proof.
  intros Hanalyze. unfold main, main_body. rewrite Hanalyze.
  unfold mbind, io_mbind, io_bind, io_lift. simpl.
  destruct (run (upload_to_blob_storage cfg fs svc (xml_file args) (blob_name args)) st)
    as [[blob | e] st'] eqn:Hupload; simpl.
  2: { split; [discriminate |]. now intros (blob & st'' & [=] & _). }
  destruct (upload_only args) eqn:Honly; simpl.
  { split; [| reflexivity]. intros _. exists blob, st'. split; [reflexivity | now left]. }
  destruct (trigger_ingestion cfg post blob (tenant_id args) (abgr_only args)
              (function_url args) (function_key args)) as [r | e] eqn:Htrigger; simpl.
  2: { split; [discriminate |].
       intros (blob' & st'' & [= <- <-] & [[=] | (r & v & Hr & _)]).
       rewrite Htrigger in Hr. discriminate. }
  destruct (summary r) as [[] | e] eqn:Hsummary; simpl.
  2: { split; [discriminate |].
       intros (blob' & st'' & [= <- <-] & [[=] | (r' & v & Hr & Hs & _)]).
       rewrite Htrigger in Hr. injection Hr as <-. rewrite Hsummary in Hs. discriminate. }
  destruct r as [| b | z | f | s | l | d]; simpl;
    try (split; [discriminate |];
         intros (blob' & st'' & [= <- <-] & [[=] | (r' & v & Hr & _ & Hget & _)]);
         rewrite Htrigger in Hr; injection Hr as <-; discriminate).
  destruct (py_truthy (default PyNone (assoc "success" d))) eqn:Htruthy; simpl.
  - split; [| reflexivity]. intros _. exists blob, st'. split; [reflexivity |].
    right. apply truthy_default_None in Htruthy as (v & Hv & Htrue).
    exists (PyDict d), v. auto.
  - split; [discriminate |].
    intros (blob' & st'' & [= <- <-] & [[=] | (r' & v & Hr & _ & Hget & Hv)]).
    rewrite Htrigger in Hr. injection Hr as <-. simpl in Hget.
    assert (Hyes : py_truthy (default PyNone (assoc "success" d)) = true)
      by (apply truthy_default_None; eauto).
    congruence.
Qed.

Lemma main_status_zero_iff_witness :
  exit_status (main default_config sample_disk memory_service post_succeeds
                    (quiet string) (quiet pyval) sample_args ∅).1 = 0.
Proof.
  apply (main_status_zero_iff default_config sample_disk memory_service post_succeeds
           (quiet string) (quiet pyval) sample_args ∅); [reflexivity |].
  eexists. eexists. split; [vm_compute; reflexivity |].
  right. eexists. eexists.
  split; [reflexivity |]. split; [reflexivity |]. split; reflexivity.
Defined.

(** X18: with [--upload-only], [main] never calls the ingestion function
    and never prints a summary: its outcome and the state it leaves the
    store in do not depend on them.  It ends with a plain return when the
    upload returned, and with [sys.exit(1)] when the upload raised, the
    store being in both cases as the upload left it. *)
Theorem upload_only_never_triggers
    {S : Type} (cfg : config) (fs : localfs) (svc : BlobService S)
    (post post' : string -> pyval -> pyval -> Z -> result response)
    (analyze : string -> result unit) (summary summary' : pyval -> result unit)
    (args : Args) (st : S) :
  analyze_only args = false ->
  upload_only args = true ->
  main cfg fs svc post analyze summary args st
  = main cfg fs svc post' analyze summary' args st /\
  (forall blob st',
     run (upload_to_blob_storage cfg fs svc (xml_file args) (blob_name args)) st
     = (Ok blob, st') ->
     main cfg fs svc post analyze summary args st = (Returned, st')) /\
  (forall e st',
     run (upload_to_blob_storage cfg fs svc (xml_file args) (blob_name args)) st
     = (Raise e, st') ->
     main cfg fs svc post analyze summary args st = (Exit 1, st')).
Proof.
  intros Hanalyze Honly. unfold main, main_body. rewrite Hanalyze.
  unfold mbind, io_mbind, io_bind. simpl.
  destruct (run (upload_to_blob_storage cfg fs svc (xml_file args) (blob_name args)) st)
    as [[blob | e] st1]; simpl; rewrite ?Honly; simpl.
  - split; [reflexivity |]. split; [| discriminate].
    now intros blob' st' [= <- <-].
  - split; [reflexivity |]. split; [discriminate |].
    now intros e' st' [= <- <-].
Qed.

Lemma upload_only_never_triggers_witness :
  main default_config sample_disk memory_service post_succeeds
       (quiet string) (quiet pyval) upload_only_args ∅
  = main default_config sample_disk memory_service post_times_out
         (quiet string) (quiet pyval) upload_only_args ∅ /\
  main default_config sample_disk memory_service post_succeeds
       (quiet string) (quiet pyval) upload_only_args ∅
  = (Returned, {[ "knowledge-sources" := {[ "kb.xml" := "<articles/>" ]} ]}).
Proof.
  pose proof (upload_only_never_triggers default_config sample_disk memory_service
                post_succeeds post_times_out (quiet string) (quiet pyval) (quiet pyval)
                upload_only_args ∅ eq_refl eq_refl) as (Hsame & Hreturned & _).
  split; [exact Hsame |].
  apply (Hreturned "kb.xml"). reflexivity.
Defined.

(** X19: when the upload went through and the ingestion call times out,
    [main] ends with status 1, whatever printing the summary does, and the
    uploaded blob stays in the store. *)
Theorem main_status_one_on_timeout
    {S : Type} (cfg : config) (fs : localfs) (svc : BlobService S)
    (post : string -> pyval -> pyval -> Z -> result response)
    (analyze : string -> result unit) (summary : pyval -> result unit)
    (args : Args) (st st' : S) (blob : string) (e : pyexc) :
  analyze_only args = false ->
  upload_only args = false ->
  run (upload_to_blob_storage cfg fs svc (xml_file args) (blob_name args)) st
  = (Ok blob, st') ->
  post (build_function_url cfg (function_url args))
       (payload cfg blob (tenant_id args) (abgr_only args))
       (headers (build_function_key cfg (function_key args))) 300 = Raise e ->
  issubclass_Timeout (exc_class e) = true ->
  main cfg fs svc post analyze summary args st = (Exit 1, st').
Proof.
  intros Hanalyze Honly Hupload Hpost Htimeout.
  unfold main, main_body. rewrite Hanalyze.
  unfold mbind, io_mbind, io_bind, io_lift. simpl.
  rewrite Hupload. simpl. rewrite Honly. simpl.
  unfold trigger_ingestion, request_body. rewrite Hpost. simpl.
  rewrite Htimeout. simpl.
  now destruct (summary timeout_result) as [[] | e'].
Qed.

Lemma main_status_one_on_timeout_witness :
  main default_config sample_disk memory_service post_times_out
       (quiet string) (quiet pyval) sample_args ∅
  = (Exit 1,
     {[ "knowledge-sources" := {[ "knowledge_articles_r2r3_en.xml" := "<articles/>" ]} ]}).
Proof.
  apply (main_status_one_on_timeout default_config sample_disk memory_service
           post_times_out (quiet string) (quiet pyval) sample_args ∅ _
           "knowledge_articles_r2r3_en.xml"
           (mkExc ReadTimeout "Read timed out. (read timeout=300)"));
    reflexivity.
Defined.

(** X20: when the file to upload does not exist, [main] ends with status
    1 (the [FileNotFoundError] of the upload step is caught) and the store
    is left as it was, whatever the storage service and the ingestion
    function would have done. *)
Theorem main_status_one_on_missing_file
    {S : Type} (cfg : config) (fs : localfs) (svc : BlobService S)
    (post : string -> pyval -> pyval -> Z -> result response)
    (analyze : string -> result unit) (summary : pyval -> result unit)
    (args : Args) (st : S) :
  analyze_only args = false ->
  os_path_exists fs (xml_file args) = false ->
  run (upload_to_blob_storage cfg fs svc (xml_file args) (blob_name args)) st
  = (Raise (mkExc (OtherException "FileNotFoundError")
                  ("XML file not found: " +:+ xml_file args)), st) /\
  main cfg fs svc post analyze summary args st = (Exit 1, st).
Proof.
  intros Hanalyze Hmissing.
  assert (Hupload :
    run (upload_to_blob_storage cfg fs svc (xml_file args) (blob_name args)) st
    = (Raise (mkExc (OtherException "FileNotFoundError")
                    ("XML file not found: " +:+ xml_file args)), st)).
  { unfold upload_to_blob_storage. now rewrite Hmissing. }
  split; [exact Hupload |].
  unfold main, main_body. rewrite Hanalyze.
  unfold mbind, io_mbind, io_bind. simpl. now rewrite Hupload.
Qed.

Lemma main_status_one_on_missing_file_witness :
  run (upload_to_blob_storage default_config (one_file "elsewhere.xml" "<a/>")
         memory_service (xml_file sample_args) (blob_name sample_args)) ∅
  = (Raise (mkExc (OtherException "FileNotFoundError")
                  ("XML file not found: " +:+ xml_file sample_args)), ∅) /\
  main default_config (one_file "elsewhere.xml" "<a/>") memory_service post_succeeds
       (quiet string) (quiet pyval) sample_args ∅ = (Exit 1, ∅).
Proof.
  apply (main_status_one_on_missing_file default_config
           (one_file "elsewhere.xml" "<a/>") memory_service post_succeeds
           (quiet string) (quiet pyval) sample_args ∅); reflexivity.
Defined.


